(** * FlightXML2 client binding: a shallow embedding of [flightaware/client.py]

    The client is a thin layer over the [requests] HTTP library and the
    [datetime] module.  Python values are embedded as the inductive type
    [value]; exceptions as the error side of [outcome]; the methods of
    [Client] as computations in a state-and-error monad whose state holds the
    client object, the remote service and the log of requests sent.  The
    language and its library behave as in CPython 3 (3.6 and later) on a
    POSIX platform. *)

From Stdlib Require Import ZArith String Ascii List Lia.
From Stdlib Require Import Floats.SpecFloat.
From stdpp Require Import base option gmap strings list fin_maps.

Local Open Scope string_scope.
Local Open Scope Z_scope.
Local Open Scope list_scope.

(** ** Python values *)

(** [datetime.datetime]: the calendar fields, and the UTC offset reported by
    its [tzinfo] ([None] for a naive value). *)
Record datetime := mkdatetime {
  year : Z; month : Z; day : Z;
  hour : Z; minute : Z; second : Z; microsecond : Z;
  utcoffset : option Z
}.

(** [datetime.timedelta], normalised by its constructor:
    [0 <= seconds < 86400] and [0 <= microseconds < 10^6]. *)
Record timedelta := mktimedelta {
  td_days : Z; td_seconds : Z; td_microseconds : Z
}.

#[local] Set Warnings "-register-all".

(** The values that reach the client: what [json] decodes (null, booleans,
    integers, binary64 floats, strings, arrays, objects keyed by strings) and
    the calendar values of [datetime]. *)
Inductive value :=
| VNone
| VBool (b : bool)
| VInt (n : Z)
| VFloat (f : spec_float)
| VStr (s : string)
| VList (l : list value)
| VDict (d : gmap string value)
| VDate (y m d : Z)
| VDatetime (d : datetime).

(** ** Exceptions *)

Inductive exn :=
| NotImplementedError
| ValueError
| TypeError
| KeyError
| OverflowError
| OSError
| TransportError.

Inductive outcome (A : Type) :=
| Ok (a : A)
| Raise (e : exn).
Arguments Ok {A} a.
Arguments Raise {A} e.

#[global] Instance outcome_ret : MRet outcome := fun A a => Ok a.
#[global] Instance outcome_bind : MBind outcome := fun A B f r =>
  match r with
  | Ok a => f a
  | Raise e => Raise e
  end.

Definition returns {A} (r : outcome A) : Prop := exists a, r = Ok a.

(** ** Primitive operations of the language *)

(** [bool(v)]. *)
Definition truthy (v : value) : bool :=
  match v with
  | VNone => false
  | VBool b => b
  | VInt n => negb (n =? 0)
  | VFloat (S754_zero _) => false
  | VFloat _ => true
  | VStr s => match s with EmptyString => false | _ => true end
  | VList l => match l with [] => false | _ => true end
  | VDict d => negb (bool_decide (d = ∅))
  | VDate _ _ _ => true
  | VDatetime _ => true
  end.

(** Numbers, booleans and null. *)
Definition is_scalar (v : value) : bool :=
  match v with
  | VNone | VBool _ | VInt _ | VFloat _ => true
  | _ => false
  end.

(** [needle in s] for two strings. *)
Definition is_substring (needle s : string) : bool :=
  match String.index 0 needle s with
  | Some _ => true
  | None => false
  end.

(** [k == v] for a string [k]. *)
Definition str_eq (k : string) (v : value) : bool :=
  match v with
  | VStr s => String.eqb k s
  | _ => false
  end.

(** [k in container] for a string [k]: key membership on a dict, element
    membership on a list, substring test on a string; the other values are
    not iterable. *)
Definition py_contains (k : string) (container : value) : outcome bool :=
  match container with
  | VDict d => Ok (bool_decide (is_Some (d !! k)))
  | VList l => Ok (existsb (str_eq k) l)
  | VStr s => Ok (is_substring k s)
  | _ => Raise TypeError
  end.

(** [container[k]] for a string [k]. *)
Definition py_getitem (container : value) (k : string) : outcome value :=
  match container with
  | VDict d =>
      match d !! k with
      | Some v => Ok v
      | None => Raise KeyError
      end
  | _ => Raise TypeError
  end.

(** [container[k] = v] for a string [k]; gives the updated container. *)
Definition py_setitem (container : value) (k : string) (v : value) : outcome value :=
  match container with
  | VDict d => Ok (VDict (<[k := v]> d))
  | _ => Raise TypeError
  end.

Fixpoint chars (s : string) : list value :=
  match s with
  | EmptyString => []
  | String c s' => VStr (String c EmptyString) :: chars s'
  end.

(** The items a [for] loop draws from a value. *)
Definition py_iter (v : value) : outcome (list value) :=
  match v with
  | VList l => Ok l
  | VDict d => Ok (VStr <$> (map_to_list d).*1)
  | VStr s => Ok (chars s)
  | _ => Raise TypeError
  end.

(** [os.path.join(a, b)] (posixpath). *)
Definition path_join (a b : string) : string :=
  if String.prefix "/" b then b
  else if String.eqb a EmptyString then b
  else if String.eqb (String.substring (Nat.pred (String.length a)) 1 a) "/" then (a ++ b)%string
  else (a ++ "/" ++ b)%string.

(** ** Module constants *)

Definition BASE_URL : string := "http://flightxml.flightaware.com/json/FlightXML2/".
Definition MAX_RECORD_LENGTH : Z := 15.

(** ** The [datetime] module *)

Definition _is_leap (y : Z) : bool :=
  (y mod 4 =? 0) && (negb (y mod 100 =? 0) || (y mod 400 =? 0)).

Definition _days_before_year (y : Z) : Z :=
  let y' := y - 1 in
  y' * 365 + y' / 4 - y' / 100 + y' / 400.

Definition _days_in_month (y m : Z) : Z :=
  if (m =? 2) && _is_leap y then 29
  else match m with
       | 1 => 31 | 2 => 28 | 3 => 31 | 4 => 30 | 5 => 31 | 6 => 30
       | 7 => 31 | 8 => 31 | 9 => 30 | 10 => 31 | 11 => 30 | 12 => 31
       | _ => -1
       end.

Definition _DAYS_BEFORE_MONTH (m : Z) : Z :=
  match m with
  | 1 => 0 | 2 => 31 | 3 => 59 | 4 => 90 | 5 => 120 | 6 => 151
  | 7 => 181 | 8 => 212 | 9 => 243 | 10 => 273 | 11 => 304 | 12 => 334
  | _ => -1
  end.

Definition _days_before_month (y m : Z) : Z :=
  _DAYS_BEFORE_MONTH m + (if (2 <? m) && _is_leap y then 1 else 0).

Definition _ymd2ord (y m d : Z) : Z :=
  _days_before_year y + _days_before_month y m + d.

Definition _DI400Y : Z := 146097.
Definition _DI100Y : Z := 36524.
Definition _DI4Y : Z := 1461.

Definition _ord2ymd (n : Z) : Z * Z * Z :=
  let n := n - 1 in
  let n400 := n / _DI400Y in
  let n := n mod _DI400Y in
  let y := n400 * 400 + 1 in
  let n100 := n / _DI100Y in
  let n := n mod _DI100Y in
  let n4 := n / _DI4Y in
  let n := n mod _DI4Y in
  let n1 := n / 365 in
  let n := n mod 365 in
  let y := y + n100 * 100 + n4 * 4 + n1 in
  if (n1 =? 4) || (n100 =? 4) then (y - 1, 12, 31)
  else
    let leapyear := (n1 =? 3) && (negb (n4 =? 24) || (n100 =? 3)) in
    let m := Z.shiftr (n + 50) 5 in
    let preceding := _DAYS_BEFORE_MONTH m + (if (2 <? m) && leapyear then 1 else 0) in
    if n <? preceding then
      let m := m - 1 in
      let preceding :=
        preceding -
        ((match m with
          | 1 => 31 | 2 => 28 | 3 => 31 | 4 => 30 | 5 => 31 | 6 => 30
          | 7 => 31 | 8 => 31 | 9 => 30 | 10 => 31 | 11 => 30 | 12 => 31
          | _ => -1
          end) + (if (m =? 2) && leapyear then 1 else 0)) in
      (y, m, n - preceding + 1)
    else (y, m, n - preceding + 1).

Definition MINYEAR : Z := 1.
Definition MAXYEAR : Z := 9999.
Definition _MAXORDINAL : Z := 3652059.

(** The checks of the [datetime] constructor. *)
Definition valid_datetime (d : datetime) : bool :=
  (MINYEAR <=? year d) && (year d <=? MAXYEAR) &&
  (1 <=? month d) && (month d <=? 12) &&
  (1 <=? day d) && (day d <=? _days_in_month (year d) (month d)) &&
  (0 <=? hour d) && (hour d <=? 23) &&
  (0 <=? minute d) && (minute d <=? 59) &&
  (0 <=? second d) && (second d <=? 59) &&
  (0 <=? microsecond d) && (microsecond d <=? 999999).

Definition toordinal (d : datetime) : Z := _ymd2ord (year d) (month d) (day d).

(** The [timedelta] constructor: carries microseconds into seconds and
    seconds into days. *)
Definition new_timedelta (days secs us : Z) : timedelta :=
  let secs := secs + us / 1000000 in
  let us := us mod 1000000 in
  let days := days + secs / 86400 in
  let secs := secs mod 86400 in
  mktimedelta days secs us.

(** [a - b] on two datetimes: both naive, or both aware (compared after
    removing their offsets); mixing the two raises [TypeError]. *)
Definition datetime_sub (a b : datetime) : outcome timedelta :=
  let base :=
    new_timedelta (toordinal a - toordinal b)
      ((second a + minute a * 60 + hour a * 3600) -
       (second b + minute b * 60 + hour b * 3600))
      (microsecond a - microsecond b) in
  match utcoffset a, utcoffset b with
  | None, None => Ok base
  | Some oa, Some ob =>
      Ok (new_timedelta (td_days base) (td_seconds base + (ob - oa)) (td_microseconds base))
  | _, _ => Raise TypeError
  end.

(** *** True division of integers and [int()] of a float

    [timedelta.total_seconds()] divides two integers with true division,
    which CPython rounds correctly: the result is the binary64 value
    nearest the exact quotient, ties to even. *)

(** Nearest integer to [a / b], ties to even, for [0 <= a] and [0 < b]. *)
Definition div_nearest_even (a b : Z) : Z :=
  let q := a / b in
  let r := a mod b in
  if 2 * r <? b then q
  else if b <? 2 * r then q + 1
  else if Z.even q then q else q + 1.

(** [floor (log2 (a / b))] for [0 < a] and [0 < b]. *)
Definition log2_quot (a b : Z) : Z :=
  let d := Z.log2 a - Z.log2 b in
  if b * 2 ^ Z.max 0 d <=? a * 2 ^ Z.max 0 (- d) then d else d - 1.

(** [a / b] for integers under true division, [0 < b]. *)
Definition int_true_divide (a b : Z) : outcome spec_float :=
  if a =? 0 then Ok (S754_zero false)
  else
    let s := a <? 0 in
    let a := Z.abs a in
    let e := Z.max (log2_quot a b - 52) (-1074) in
    let m := if 0 <=? e then div_nearest_even a (b * 2 ^ e)
             else div_nearest_even (a * 2 ^ (- e)) b in
    let '(m, e) := if m =? 2 ^ 53 then (2 ^ 52, e + 1) else (m, e) in
    if m =? 0 then Ok (S754_zero s)
    else if 971 <? e then Raise OverflowError
    else Ok (S754_finite s (Z.to_pos m) e).

(** [int(f)]: truncation toward zero. *)
Definition int_of_float (f : spec_float) : outcome Z :=
  match f with
  | S754_zero _ => Ok 0
  | S754_finite s m e =>
      let a := if 0 <=? e then Z.pos m * 2 ^ e else Z.pos m / 2 ^ (- e) in
      Ok (if s then - a else a)
  | S754_infinity _ => Raise OverflowError
  | S754_nan => Raise ValueError
  end.

Definition total_microseconds (td : timedelta) : Z :=
  (td_days td * 86400 + td_seconds td) * 1000000 + td_microseconds td.

Definition total_seconds (td : timedelta) : outcome spec_float :=
  int_true_divide (total_microseconds td) 1000000.

(** ** [flightaware/client.py]: the timestamp helpers *)

Definition EPOCH : datetime := mkdatetime 1970 1 1 0 0 0 0 None.

Definition to_unix_timestamp (val : value) : outcome value :=
  if truthy val then
    match val with
    | VDatetime d =>
        delta ← datetime_sub d EPOCH;
        secs ← total_seconds delta;
        output ← int_of_float secs;
        Ok (VInt output)
    | _ => Raise ValueError
    end
  else
    Ok VNone.

(** ** Reference quantities for the properties *)

(** Whole seconds from [EPOCH] to the reading of [d], both taken as
    readings of one clock. *)
Definition seconds_since_epoch (d : datetime) : Z :=
  (toordinal d - toordinal EPOCH) * 86400 + hour d * 3600 + minute d * 60 + second d.

Definition microseconds_since_epoch (d : datetime) : Z :=
  seconds_since_epoch d * 1000000 + microsecond d.

(** The day of the year, from 0, of a month and a day. *)
Definition year_day (leap : bool) (m d : Z) : Z :=
  _DAYS_BEFORE_MONTH m + (if (2 <? m) && leap then 1 else 0) + d - 1.


(** [_days_in_month] as a function of the leap flag. *)
Definition days_in (leap : bool) (m : Z) : Z :=
  if (m =? 2) && leap then 29
  else match m with
       | 1 => 31 | 2 => 28 | 3 => 31 | 4 => 30 | 5 => 31 | 6 => 30
       | 7 => 31 | 8 => 31 | 9 => 30 | 10 => 31 | 11 => 30 | 12 => 31
       | _ => -1
       end.

(** The last steps of [_ord2ymd]: month and day from the day of the year. *)
Definition month_day (y : Z) (leapyear : bool) (n : Z) : Z * Z * Z :=
  let m := Z.shiftr (n + 50) 5 in
  let preceding := _DAYS_BEFORE_MONTH m + (if (2 <? m) && leapyear then 1 else 0) in
  if n <? preceding then
    let m := m - 1 in
    let preceding :=
      preceding -
      ((match m with
        | 1 => 31 | 2 => 28 | 3 => 31 | 4 => 30 | 5 => 31 | 6 => 30
        | 7 => 31 | 8 => 31 | 9 => 30 | 10 => 31 | 11 => 30 | 12 => 31
        | _ => -1
        end) + (if (m =? 2) && leapyear then 1 else 0)) in
    (y, m, n - preceding + 1)
  else (y, m, n - preceding + 1).


(** For a count [a] of microseconds: the binary64 value nearest to
    [a / 10^6] is the whole number above the quotient.  With [F] the whole
    seconds of the quotient, at least 1, this is the case when the quotient
    lies within half a unit in the last place of binary64 at [F], which is
    [2 ^ (log2 F - 53)], of [F + 1].  (For the counts a datetime can give,
    [F] is below [2 ^ 38].) *)
Definition rounds_to_next_second (a : Z) : bool :=
  let F := a / 1000000 in
  let r := 1000000 - a mod 1000000 in
  (1 <=? F) && (r * 2 ^ (53 - Z.log2 F) <=? 1000000).

(** Tuples of integers compared in order. *)
Fixpoint lex_lt (a b : list Z) : bool :=
  match a, b with
  | x :: a', y :: b' => (x <? y) || ((x =? y) && lex_lt a' b')
  | _, _ => false
  end.

(** [d1 < d2] on two naive datetimes: their fields compared in order. *)
Definition datetime_lt (d1 d2 : datetime) : bool :=
  lex_lt [year d1; month d1; day d1; hour d1; minute d1; second d1; microsecond d1]
         [year d2; month d2; day d2; hour d2; minute d2; second d2; microsecond d2].

(** ** The HTTP layer *)

(** [requests.auth.HTTPBasicAuth]. *)
Record HTTPBasicAuth := mkHTTPBasicAuth {
  auth_username : string;
  auth_password : string
}.

(** The attributes of a [Client] object. *)
Record Client := mkClient {
  auth : HTTPBasicAuth;
  headers : gmap string string
}.

(** The arguments of one [requests.post] call. *)
Record request := mkrequest {
  req_url : string;
  req_data : value;
  req_auth : HTTPBasicAuth;
  req_headers : gmap string string
}.

(** What [requests.post] returns: of the response only [r.json()] is used,
    and it decodes the body or raises. *)
Record Response := mkResponse {
  json : outcome value
}.

(** [Client.__init__]. *)
Definition Client__init__ (username api_key : string) : Client :=
  {| auth := mkHTTPBasicAuth username api_key;
     headers := {[ "Content-Type" := "application/x-www-form-urlencoded" ]} |}.

(** Lines 61 to 67 of [Client._request]: the unwrapping of the decoded body. *)
Definition _request_unwrap (method : string) (result : value) : outcome value :=
  let final := result in
  let key := (method ++ "Result")%string in
  has_key ← py_contains key result;
  if has_key : bool then
    final ← py_getitem result key;
    has_data ← py_contains "data" final;
    if has_data : bool then py_getitem final "data" else Ok final
  else Ok final.

(** The state the methods run in: the client object, the remote service,
    and the requests sent so far (a ghost log: the code keeps none). *)
Record state (world : Type) := mkstate {
  self : Client;
  net : world;
  sent : list request
}.
Arguments mkstate {world} self net sent.
Arguments self {world} s.
Arguments net {world} s.
Arguments sent {world} s.

(** ** Sample platforms, services and clients *)

(** A service that answers every request with the same decoded body. *)
Definition canned (body : value) : request -> unit -> outcome Response * unit :=
  fun _ w => (Ok (mkResponse (Ok body)), w).

(** A local time zone on UTC, and one six hours behind it. *)
Definition zone_utc : Z -> Z := fun _ => 0.
Definition zone_us_central : Z -> Z := fun _ => -21600.

Definition no_float_timestamps : spec_float -> outcome datetime :=
  fun _ => Raise ValueError.

(** A service that cannot be reached. *)
Definition unreachable : request -> unit -> outcome Response * unit :=
  fun _ w => (Raise TransportError, w).

(** Sample bodies: one scheduled flight in the full envelope, and the
    record the service would send without its departure time. *)
Definition sample_flight : gmap string value :=
  <[ "ident" := VStr "DAL123" ]> (
  <[ "departuretime" := VInt 1388577600 ]> (
  <[ "arrivaltime" := VInt 1388584800 ]> ∅)).

Definition sample_schedule_body : value :=
  VDict {[ "AirlineFlightSchedulesResult" :=
             VDict (<[ "next_offset" := VInt 1 ]> (
                    <[ "data" := VList [VDict sample_flight] ]> ∅)) ]}.

Definition sample_error_body : value :=
  VDict {[ "error" := VStr "INVALID_ARGUMENT" ]}.

Definition sample_noon : datetime := mkdatetime 2014 1 1 12 0 0 0 None.

Definition client0 : Client := Client__init__ "user" "key".
Definition st0 : state unit := mkstate client0 tt [].

Section Binding.

#[local] Set Default Proof Using "Type".

(** The platform: the UTC offset in seconds of the process's local time
    zone at a given instant (from the C library's [localtime]), and
    [datetime.fromtimestamp] on a float argument, whose treatment of the
    fraction is left open. *)
Variable localtime_utcoffset : Z -> Z.
Variable fromtimestamp_float : spec_float -> outcome datetime.

(** The remote service: [requests.post] sends a request and gives a
    response or a transport fault, and the service moves on. *)
Variable world : Type.
Variable requests_post : request -> world -> outcome Response * world.

(** *** [from_unix_timestamp] *)

(** [datetime.datetime.fromtimestamp(n)] for an integer, as CPython 3 (3.6
    and later) computes it on a POSIX platform with a 64-bit [time_t].

    [localtime] is the C library's [localtime_r]: the broken-down local time
    of instant [t] is the UTC one of [t + localtime_utcoffset t], and the
    call fails when the year does not fit the [int] field [tm_year]. *)
Definition localtime (t : Z) : outcome (Z * Z * Z * Z * Z * Z) :=
  let u := t + localtime_utcoffset t in
  let '(y, m, d) := _ord2ymd (toordinal EPOCH + u / 86400) in
  let s := u mod 86400 in
  if (- 2 ^ 31 <=? y - 1900) && (y - 1900 <? 2 ^ 31)
  then Ok (y, m, d, s / 3600, s mod 3600 / 60, s mod 60)
  else Raise OSError.

(** [utc_to_seconds]: seconds from the start of year 1, for a year the
    calendar has. *)
Definition utc_to_seconds (y m d hh mm ss : Z) : outcome Z :=
  if (y <? MINYEAR) || (MAXYEAR <? y) then Raise ValueError
  else Ok (((_ymd2ord y m d * 24 + hh) * 60 + mm) * 60 + ss).

(** [local]: the local reading of instant [t] in seconds. *)
Definition local (t : Z) : outcome Z :=
  tm ← localtime t;
  let '(y, m, d, hh, mm, ss) := tm in
  utc_to_seconds y m d hh mm ss.

Definition max_fold_seconds : Z := 24 * 3600.

(** The integer has to fit [time_t]; the local time of the instant is taken;
    then, to set the [fold] attribute (which no comparison of naive
    datetimes reads, and the record leaves out), the local time a day
    earlier is probed, and once more at the transition when the offset went
    down within that day.  The three readings have to lie in
    [MINYEAR..MAXYEAR]. *)
Definition fromtimestamp_int (n : Z) : outcome datetime :=
  if (- 2 ^ 63 <=? n) && (n <? 2 ^ 63) then
    tm ← localtime n;
    let '(y, m, d, hh, mm, ss) := tm in
    result_seconds ← utc_to_seconds y m d hh mm ss;
    probe_seconds ← local (n - max_fold_seconds);
    let transition := result_seconds - probe_seconds - max_fold_seconds in
    _ ← (if transition <? 0 then local (n + transition) else Ok 0);
    Ok (mkdatetime y m d hh mm ss 0 None)
  else Raise OverflowError.

Definition fromtimestamp (val : value) : outcome datetime :=
  match val with
  | VInt n => fromtimestamp_int n
  | VBool b => fromtimestamp_int (if b then 1 else 0)
  | VFloat f => fromtimestamp_float f
  | _ => Raise TypeError
  end.

Definition from_unix_timestamp (val : value) : outcome datetime :=
  fromtimestamp val.

(** *** The monad of the methods *)

Definition M (A : Type) : Type := state world -> outcome A * state world.

#[local] Instance M_ret : MRet M := fun A a st => (Ok a, st).
#[local] Instance M_bind : MBind M := fun A B f m st =>
  match m st with
  | (Ok a, st') => f a st'
  | (Raise e, st') => (Raise e, st')
  end.

Definition lift {A} (r : outcome A) : M A := fun st => (r, st).
Definition raise {A} (e : exn) : M A := fun st => (Raise e, st).
Definition get_self : M Client := fun st => (Ok (self st), st).

(** [requests.post]: the library reads the headers and the credentials it
    is handed and builds its own copy for the wire; the client object is not
    within its reach. *)
Definition post (rq : request) : M Response := fun st =>
  let '(r, w) := requests_post rq (net st) in
  (r, {| self := self st; net := w; sent := sent st ++ [rq] |}).

(** *** [Client._request] *)

Definition _request (method : string) (data : value) : M value :=
  this ← get_self;
  let url := path_join BASE_URL method in
  r ← post (mkrequest url data (auth this) (headers this));
  result ← lift (json r);
  lift (_request_unwrap method result).

(** The request [_request] builds for a method and a body. *)
Definition request_of (this : Client) (method : string) (data : value) : request :=
  mkrequest (path_join BASE_URL method) data (auth this) (headers this).

(** *** The implemented operations *)

Definition aircraft_type (aircraft_type : value) : M value :=
  let data := VDict {[ "type" := aircraft_type ]} in
  _request "AircraftType" data.

Definition airline_flight_info (fa_flight_id : value) : M value :=
  let data := VDict {[ "faFlightID" := fa_flight_id ]} in
  _request "AirlineFlightInfo" data.

(** The body of the loop of [airline_flight_schedules]. *)
Definition schedule_item (item : value) : outcome value :=
  raw ← py_getitem item "departuretime";
  t ← from_unix_timestamp raw;
  item ← py_setitem item "departure_time" (VDatetime t);
  raw ← py_getitem item "arrivaltime";
  t ← from_unix_timestamp raw;
  py_setitem item "arrival_time" (VDatetime t).

Fixpoint for_each (f : value -> outcome value) (items : list value) : outcome (list value) :=
  match items with
  | [] => Ok []
  | item :: rest =>
      item' ← f item;
      rest' ← for_each f rest;
      Ok (item' :: rest')
  end.

(** [for item in results: ...] with the items updated in place: a list
    holds the updated records afterwards; the items drawn from a dict or a
    string are strings, which the body cannot update. *)
Definition schedule_loop (results : value) : outcome value :=
  items ← py_iter results;
  items' ← for_each schedule_item items;
  match results with
  | VList _ => Ok (VList items')
  | _ => Ok results
  end.

Definition airline_flight_schedules
    (start_date end_date origin destination airline flight_number how_many offset : value)
    : M value :=
  startDate ← lift (to_unix_timestamp start_date);
  endDate ← lift (to_unix_timestamp end_date);
  let data := VDict (
    <[ "startDate" := startDate ]> (
    <[ "endDate" := endDate ]> (
    <[ "origin" := origin ]> (
    <[ "destination" := destination ]> (
    <[ "airline" := airline ]> (
    <[ "flightno" := flight_number ]> (
    <[ "howMany" := how_many ]> (
    <[ "offset" := offset ]> ∅)))))))) in
  results ← _request "AirlineFlightSchedules" data;
  lift (schedule_loop results).

Definition airline_info (airline : value) : M value :=
  let data := VDict {[ "airlineCode" := airline ]} in
  _request "AirlineInfo" data.

Definition airline_insight (origin destination report_type : value) : M value :=
  let data := VDict (
    <[ "origin" := origin ]> (
    <[ "destination" := destination ]> (
    <[ "reportType" := report_type ]> ∅))) in
  _request "AirlineInsight" data.

Definition airport_info (airport : value) : M value :=
  let data := VDict {[ "airportCode" := airport ]} in
  _request "AirportInfo" data.

Definition all_airlines : M value := _request "AllAirlines" VNone.

Definition all_airports : M value := _request "AllAirports" VNone.

Definition block_indent_check (ident : value) : M value :=
  let data := VDict {[ "ident" := ident ]} in
  _request "BlockIdentCheck" data.

Definition count_airport_operations (airport : value) : M value :=
  let data := VDict {[ "airport" := airport ]} in
  _request "CountAirportOperations" data.

Definition count_all_enroute_airline_operations : M value :=
  _request "CountAllEnrouteAirlineOperations" VNone.

Definition get_flight_id (ident departure_datetime : value) : M value :=
  departureTime ← lift (to_unix_timestamp departure_datetime);
  let data := VDict (
    <[ "ident" := ident ]> (
    <[ "departureTime" := departureTime ]> ∅)) in
  _request "GetFlightID" data.

Definition metar (airport : value) : M value :=
  let data := VDict {[ "airport" := airport ]} in
  _request "Metar" data.

Definition metar_ex (airport : value) : M value :=
  let data := VDict {[ "airport" := airport ]} in
  _request "MetarEx" data.

Definition ntaf (airport : value) : M value :=
  let data := VDict {[ "airport" := airport ]} in
  _request "NTaf" data.

Definition taf (airport : value) : M value :=
  let data := VDict {[ "airport" := airport ]} in
  _request "NTaf" data.

Definition tail_owner (ident : value) : M value :=
  let data := VDict {[ "ident" := ident ]} in
  _request "TailOwner" data.

Definition zipcode_info (zipcode : value) : M value :=
  let data := VDict {[ "zipcode" := zipcode ]} in
  _request "ZipcodeInfo" data.

(** *** The operations that are declared only *)

Definition decode_flight_route : M value := raise NotImplementedError.
Definition decode_route : M value := raise NotImplementedError.
Definition arrived (airport how_many filter offset : value) : M value :=
  raise NotImplementedError.
Definition departed (airport how_many filter offset : value) : M value :=
  raise NotImplementedError.
Definition enroute : M value := raise NotImplementedError.
Definition fleet_arrived : M value := raise NotImplementedError.
Definition fleet_scheduled : M value := raise NotImplementedError.
Definition flight_info (ident how_many : value) : M value :=
  raise NotImplementedError.
Definition flight_info_ex : M value := raise NotImplementedError.
Definition get_historical_track : M value := raise NotImplementedError.
Definition get_last_track : M value := raise NotImplementedError.
Definition inbound_flight_info : M value := raise NotImplementedError.
Definition in_flight_info : M value := raise NotImplementedError.
Definition lat_lng_to_distance : M value := raise NotImplementedError.
Definition lat_lng_to_heading : M value := raise NotImplementedError.
Definition map_flight : M value := raise NotImplementedError.
Definition map_flight_ex : M value := raise NotImplementedError.
Definition routes_between_airports : M value := raise NotImplementedError.
Definition routes_between_airports_ex : M value := raise NotImplementedError.
Definition scheduled : M value := raise NotImplementedError.
Definition search : M value := raise NotImplementedError.
Definition search_birdseye_in_flight : M value := raise NotImplementedError.
Definition search_birdseye_positions : M value := raise NotImplementedError.
Definition search_count : M value := raise NotImplementedError.
Definition set_maximum_result_sizes : M value := raise NotImplementedError.
Definition get_alerts : M value := raise NotImplementedError.
Definition delete_alert : M value := raise NotImplementedError.
Definition set_alert : M value := raise NotImplementedError.
Definition register_alert_endpoint : M value := raise NotImplementedError.

(** *** Invocations

    A call of a method of [Client] with arguments that fit its signature.
    [Implemented] are the methods whose body reaches [_request],
    [Declared] those whose body is [raise NotImplementedError]. *)

Inductive implemented :=
| Aircraft_type (aircraft_type : value)
| Airline_flight_info (fa_flight_id : value)
| Airline_flight_schedules
    (start_date end_date origin destination airline flight_number how_many offset : value)
| Airline_info (airline : value)
| Airline_insight (origin destination report_type : value)
| Airport_info (airport : value)
| All_airlines
| All_airports
| Block_indent_check (ident : value)
| Count_airport_operations (airport : value)
| Count_all_enroute_airline_operations
| Get_flight_id (ident departure_datetime : value)
| Metar (airport : value)
| Metar_ex (airport : value)
| Ntaf (airport : value)
| Taf (airport : value)
| Tail_owner (ident : value)
| Zipcode_info (zipcode : value).

Inductive declared :=
| Decode_flight_route
| Decode_route
| Arrived (airport how_many filter offset : value)
| Departed (airport how_many filter offset : value)
| Enroute
| Fleet_arrived
| Fleet_scheduled
| Flight_info (ident how_many : value)
| Flight_info_ex
| Get_historical_track
| Get_last_track
| Inbound_flight_info
| In_flight_info
| Lat_lng_to_distance
| Lat_lng_to_heading
| Map_flight
| Map_flight_ex
| Routes_between_airports
| Routes_between_airports_ex
| Scheduled
| Search
| Search_birdseye_in_flight
| Search_birdseye_positions
| Search_count
| Set_maximum_result_sizes
| Get_alerts
| Delete_alert
| Set_alert
| Register_alert_endpoint.

Definition call_implemented (c : implemented) : M value :=
  match c with
  | Aircraft_type a => aircraft_type a
  | Airline_flight_info a => airline_flight_info a
  | Airline_flight_schedules a b c d e f g h => airline_flight_schedules a b c d e f g h
  | Airline_info a => airline_info a
  | Airline_insight a b c => airline_insight a b c
  | Airport_info a => airport_info a
  | All_airlines => all_airlines
  | All_airports => all_airports
  | Block_indent_check a => block_indent_check a
  | Count_airport_operations a => count_airport_operations a
  | Count_all_enroute_airline_operations => count_all_enroute_airline_operations
  | Get_flight_id a b => get_flight_id a b
  | Metar a => metar a
  | Metar_ex a => metar_ex a
  | Ntaf a => ntaf a
  | Taf a => taf a
  | Tail_owner a => tail_owner a
  | Zipcode_info a => zipcode_info a
  end.

Definition call_declared (c : declared) : M value :=
  match c with
  | Decode_flight_route => decode_flight_route
  | Decode_route => decode_route
  | Arrived a b c d => arrived a b c d
  | Departed a b c d => departed a b c d
  | Enroute => enroute
  | Fleet_arrived => fleet_arrived
  | Fleet_scheduled => fleet_scheduled
  | Flight_info a b => flight_info a b
  | Flight_info_ex => flight_info_ex
  | Get_historical_track => get_historical_track
  | Get_last_track => get_last_track
  | Inbound_flight_info => inbound_flight_info
  | In_flight_info => in_flight_info
  | Lat_lng_to_distance => lat_lng_to_distance
  | Lat_lng_to_heading => lat_lng_to_heading
  | Map_flight => map_flight
  | Map_flight_ex => map_flight_ex
  | Routes_between_airports => routes_between_airports
  | Routes_between_airports_ex => routes_between_airports_ex
  | Scheduled => scheduled
  | Search => search
  | Search_birdseye_in_flight => search_birdseye_in_flight
  | Search_birdseye_positions => search_birdseye_positions
  | Search_count => search_count
  | Set_maximum_result_sizes => set_maximum_result_sizes
  | Get_alerts => get_alerts
  | Delete_alert => delete_alert
  | Set_alert => set_alert
  | Register_alert_endpoint => register_alert_endpoint
  end.

(** The vendor method each implemented operation stands for, as the
    docstring of the operation names it. *)
Definition vendor_method (c : implemented) : string :=
  match c with
  | Aircraft_type _ => "AircraftType"
  | Airline_flight_info _ => "AirlineFlightInfo"
  | Airline_flight_schedules _ _ _ _ _ _ _ _ => "AirlineFlightSchedules"
  | Airline_info _ => "AirlineInfo"
  | Airline_insight _ _ _ => "AirlineInsight"
  | Airport_info _ => "AirportInfo"
  | All_airlines => "AllAirlines"
  | All_airports => "AllAirports"
  | Block_indent_check _ => "BlockIdentCheck"
  | Count_airport_operations _ => "CountAirportOperations"
  | Count_all_enroute_airline_operations => "CountAllEnrouteAirlineOperations"
  | Get_flight_id _ _ => "GetFlightID"
  | Metar _ => "Metar"
  | Metar_ex _ => "MetarEx"
  | Ntaf _ => "NTaf"
  | Taf _ => "Taf"
  | Tail_owner _ => "TailOwner"
  | Zipcode_info _ => "ZipcodeInfo"
  end.

(** The method name an operation passes to [_request]. *)
Definition requested_method (c : implemented) : string :=
  match c with
  | Taf _ => "NTaf"
  | _ => vendor_method c
  end.

(** The requests a run from [st] to [st'] has added to the log. *)
Definition issued (st st' : state world) : list request :=
  drop (length (sent st)) (sent st').

(** A run was rejected before any request, or every request it issued asks
    for [MAX_RECORD_LENGTH] records. *)
Definition rejected_or_truncated (st st' : state world) : Prop :=
  issued st st' = [] \/
  Forall (fun rq => exists data,
            req_data rq = VDict data /\ data !! "howMany" = Some (VInt MAX_RECORD_LENGTH))
         (issued st st').

(** A record that carries both derived fields, decoded from its raw ones. *)
Definition has_derived_times (item : value) : Prop :=
  exists (d : gmap string value) raw_dep raw_arr dep arr,
    item = VDict d /\
    d !! "departuretime" = Some raw_dep /\
    d !! "arrivaltime" = Some raw_arr /\
    from_unix_timestamp raw_dep = Ok dep /\
    from_unix_timestamp raw_arr = Ok arr /\
    d !! "departure_time" = Some (VDatetime dep) /\
    d !! "arrival_time" = Some (VDatetime arr).

(** A reading of the local clock, in seconds from [EPOCH], that lies
    between 0001-01-01 00:00:00 and 9999-12-31 23:59:59. *)
Definition in_calendar (u : Z) : Prop := -62135596800 <= u <= 253402300799.

(** The readings [fromtimestamp] probes to set [fold] lie in the calendar:
    the one a day before instant [n], and the one at the transition when the
    offset went down within that day. *)
Definition fold_probes_in_calendar (n : Z) : Prop :=
  in_calendar (n - 86400 + localtime_utcoffset (n - 86400)) /\
  (localtime_utcoffset n < localtime_utcoffset (n - 86400) ->
   in_calendar (n + (localtime_utcoffset n - localtime_utcoffset (n - 86400)) +
                localtime_utcoffset (n + (localtime_utcoffset n - localtime_utcoffset (n - 86400))))).

(** ** Properties *)

(** Arithmetic goals that do not mention the platform or the service are
    proved with these out of the context. *)
Ltac pure_context :=
  try clear requests_post; try clear world;
  try clear fromtimestamp_float; try clear localtime_utcoffset.

(** *** True division and truncation *)

Lemma div_nearest_even_cases (x b : Z) :
  div_nearest_even x b = x / b \/ div_nearest_even x b = x / b + 1.
Proof.
  unfold div_nearest_even.
  destruct (2 * (x mod b) <? b); [left; reflexivity|].
  destruct (b <? 2 * (x mod b)); [right; reflexivity|].
  destruct (Z.even (x / b)); [left | right]; reflexivity.
Qed.

Lemma div_nearest_even_exact (x b : Z) :
  0 < b -> x mod b = 0 -> div_nearest_even x b = x / b.
Proof.
  intros Hb Hx. unfold div_nearest_even. rewrite Hx.
  destruct (Z.ltb_spec (2 * 0) b); [reflexivity | lia].
Qed.

Lemma log2_quot_le (a b : Z) : log2_quot a b <= Z.log2 a - Z.log2 b.
Proof. unfold log2_quot. destruct (_ <=? _); lia. Qed.

(** The integer part of the float [m * 2^e] is not changed by moving one bit from the mantissa to the exponent. *)
Lemma trunc_renormalised (m e : Z) :
  e <= 0 ->
  (let '(m', e') := if m =? 2 ^ 53 then (2 ^ 52, e + 1) else (m, e) in
   if 0 <=? e' then m' * 2 ^ e' else m' / 2 ^ (- e')) = m / 2 ^ (- e).
Proof.
  intros He. destruct (Z.eqb_spec m (2 ^ 53)) as [-> | Hm].
  - destruct (Z.leb_spec 0 (e + 1)) as [H1 | H1].
    + assert (e = 0 \/ e = -1) as [-> | ->] by lia; reflexivity.
    + replace (- e) with (1 + - (e + 1)) by lia.
      rewrite Z.pow_add_r by lia.
      change (2 ^ 53) with (2 ^ 1 * 2 ^ 52).
      rewrite Z.div_mul_cancel_l; [reflexivity | | lia].
      apply Z.pow_nonzero; lia.
  - destruct (Z.leb_spec 0 e) as [H0 | H0].
    + assert (e = 0) as -> by lia. simpl. rewrite Z.div_1_r. lia.
    + reflexivity.
Qed.

Lemma shifted_quotient (a b k : Z) :
  0 <= a -> 0 < b -> 0 <= k ->
  (a * 2 ^ k / b) / 2 ^ k = a / b /\
  (a * 2 ^ k / b + 1) / 2 ^ k <= a / b + 1 /\
  a / b <= (a * 2 ^ k / b + 1) / 2 ^ k.
Proof.
  intros Ha Hb Hk.
  assert (Hp : 0 < 2 ^ k) by (apply Z.pow_pos_nonneg; lia).
  assert (E : (a * 2 ^ k / b) / 2 ^ k = a / b).
  { rewrite Z.div_div by lia. rewrite Z.div_mul_cancel_r by lia. reflexivity. }
  split; [exact E|]. split.
  - rewrite <- E.
    rewrite <- (Z.div_add (a * 2 ^ k / b) 1 (2 ^ k)) by lia.
    apply Z.div_le_mono; lia.
  - rewrite <- E. apply Z.div_le_mono; lia.
Qed.

(** [int(a / b)] for a nonzero [a] whose quotient by [b] stays below [2^53]. *)
Lemma int_true_divide_int (a b : Z) :
  a <> 0 -> 0 < b -> Z.log2 (Z.abs a) - Z.log2 b <= 52 ->
  exists f n,
    int_true_divide a b = Ok f /\
    int_of_float f = Ok (Z.sgn a * n) /\
    (n = Z.abs a / b \/ n = Z.abs a / b + 1) /\
    (Z.abs a mod b = 0 -> n = Z.abs a / b).
Proof.
  intros Ha Hb Hlog. unfold int_true_divide.
  destruct (Z.eqb_spec a 0) as [|_]; [contradiction|].
  set (a' := Z.abs a) in *.
  assert (Ha' : 0 < a') by (subst a'; lia).
  set (e := Z.max (log2_quot a' b - 52) (-1074)).
  assert (He : e <= 0) by (pose proof (log2_quot_le a' b); subst e; lia).
  set (m := if 0 <=? e then div_nearest_even a' (b * 2 ^ e)
            else div_nearest_even (a' * 2 ^ (- e)) b).
  assert (Hp : 0 < 2 ^ (- e)) by (apply Z.pow_pos_nonneg; lia).
  assert (Hm : m = div_nearest_even (a' * 2 ^ (- e)) b).
  { subst m. destruct (Z.leb_spec 0 e); [|reflexivity].
    assert (e = 0) as -> by lia. simpl. rewrite !Z.mul_1_r. reflexivity. }
  clearbody m.
  pose proof (trunc_renormalised m e He) as Htr.
  destruct (shifted_quotient a' b (- e)) as (Hq & Hup & Hlo); [lia..|].
  assert (Hx0 : 0 <= a' * 2 ^ (- e) / b) by (apply Z.div_pos; lia).
  assert (Hn : (m / 2 ^ (- e) = a' / b \/ m / 2 ^ (- e) = a' / b + 1) /\
               (a' mod b = 0 -> m / 2 ^ (- e) = a' / b)).
  { split.
    - destruct (div_nearest_even_cases (a' * 2 ^ (- e)) b) as [E | E];
        rewrite Hm, E; [left; exact Hq | lia].
    - intros Hmod. rewrite Hm, div_nearest_even_exact; [exact Hq | lia |].
      rewrite <- Z.mul_mod_idemp_l by lia. rewrite Hmod. reflexivity. }
  assert (Hm0 : 0 <= m).
  { rewrite Hm. destruct (div_nearest_even_cases (a' * 2 ^ (- e)) b) as [E | E]; rewrite E; lia. }
  destruct (if m =? 2 ^ 53 then (2 ^ 52, e + 1) else (m, e)) as [m' e'] eqn:Hnorm.
  assert (Hm' : 0 <= m' /\ (m' = 0 -> m = 0) /\ e' <= 1).
  { destruct (m =? 2 ^ 53) eqn:E53; injection Hnorm as <- <-; lia. }
  destruct (Z.eqb_spec m' 0) as [Hz | Hnz].
  - exists (S754_zero (a <? 0)), 0. split; [reflexivity|].
    assert (m = 0) as Hmz by (apply Hm'; exact Hz).
    rewrite Hmz, Z.div_0_l in Hn by lia.
    split; [simpl; f_equal; lia|]. destruct Hn as [Hn1 Hn2]. split.
    + destruct Hn1; [left | right]; lia.
    + intros Hmod. apply Hn2, Hmod.
  - destruct (Z.ltb_spec 971 e'); [lia|].
    exists (S754_finite (a <? 0) (Z.to_pos m') e'), (m / 2 ^ (- e)).
    split; [reflexivity|]. split; [|exact Hn].
    simpl. rewrite Z2Pos.id by lia. rewrite Htr. f_equal.
    destruct (Z.ltb_spec a 0); lia.
Qed.

(** *** [to_unix_timestamp] *)

Lemma total_microseconds_new_timedelta (days secs us : Z) :
  total_microseconds (new_timedelta days secs us) = (days * 86400 + secs) * 1000000 + us.
Proof.
  unfold total_microseconds, new_timedelta; simpl.
  pose proof (Z.div_mod us 1000000).
  pose proof (Z.div_mod (secs + us / 1000000) 86400).
  lia.
Qed.

Lemma datetime_sub_naive (d : datetime) :
  utcoffset d = None ->
  exists td, datetime_sub d EPOCH = Ok td /\
             total_microseconds td = microseconds_since_epoch d.
Proof.
  intros Hn. unfold datetime_sub. rewrite Hn. cbn [utcoffset EPOCH].
  eexists. split; [reflexivity|].
  rewrite total_microseconds_new_timedelta.
  unfold microseconds_since_epoch, seconds_since_epoch. cbn [second minute hour microsecond EPOCH]. lia.
Qed.

Lemma datetime_sub_aware (d : datetime) (o : Z) :
  utcoffset d = Some o -> datetime_sub d EPOCH = Raise TypeError.
Proof. intros Ha. unfold datetime_sub. rewrite Ha. reflexivity. Qed.

Lemma _days_before_year_bounds (y : Z) :
  1 <= y <= 9999 -> 0 <= _days_before_year y <= 3651694.
Proof.
  pure_context.
  intros Hy. unfold _days_before_year. cbv zeta.
  Z.div_mod_to_equations. lia.
Qed.

Lemma _days_before_month_bounds (y m : Z) :
  1 <= m <= 12 -> 0 <= _days_before_month y m <= 335.
Proof.
  intros Hm. unfold _days_before_month.
  assert (m = 1 \/ m = 2 \/ m = 3 \/ m = 4 \/ m = 5 \/ m = 6 \/ m = 7 \/ m = 8 \/ m = 9 \/
          m = 10 \/ m = 11 \/ m = 12) as Hc by lia.
  destruct (_is_leap y);
    repeat (destruct Hc as [-> | Hc]; [simpl; lia|]); subst; simpl; lia.
Qed.

Lemma _days_in_month_le (y m : Z) : _days_in_month y m <= 31.
Proof.
  unfold _days_in_month. destruct ((m =? 2) && _is_leap y); [lia|].
  destruct m as [|p|p]; try lia.
  do 4 (try destruct p as [p|p|]); lia.
Qed.

Ltac split_valid H :=
  unfold valid_datetime, MINYEAR, MAXYEAR in H;
  repeat (apply andb_prop in H; destruct H as [H ?]);
  repeat match goal with
         | H : (_ <=? _) = true |- _ => apply Z.leb_le in H
         end.

Lemma microseconds_since_epoch_bounds (d : datetime) :
  valid_datetime d = true -> Z.abs (microseconds_since_epoch d) < 2 ^ 58.
Proof.
  intros Hv. split_valid Hv.
  pose proof (_days_before_year_bounds (year d) ltac:(lia)).
  pose proof (_days_before_month_bounds (year d) (month d) ltac:(lia)).
  pose proof (_days_in_month_le (year d) (month d)).
  unfold microseconds_since_epoch, seconds_since_epoch, toordinal, _ymd2ord.
  change (_days_before_year (year EPOCH) + _days_before_month (year EPOCH) (month EPOCH) + day EPOCH)
    with 719163.
  change (2 ^ 58) with 288230376151711744. lia.
Qed.

Lemma to_unix_timestamp_naive (d : datetime) :
  valid_datetime d = true -> utcoffset d = None ->
  exists n, to_unix_timestamp (VDatetime d) = Ok (VInt n) /\
    (n = Z.quot (microseconds_since_epoch d) 1000000 \/
     n = Z.quot (microseconds_since_epoch d) 1000000 + Z.sgn (microseconds_since_epoch d)) /\
    (microsecond d = 0 -> n = seconds_since_epoch d).
Proof.
  intros Hv Hn. unfold to_unix_timestamp. cbn [truthy].
  destruct (datetime_sub_naive d Hn) as (td & -> & Htd). cbn [mbind outcome_bind].
  unfold total_seconds. rewrite Htd.
  pose proof (microseconds_since_epoch_bounds d Hv) as Hb.
  set (T := microseconds_since_epoch d) in *.
  destruct (Z.eq_dec T 0) as [HT | HT].
  - rewrite HT. exists 0. split; [reflexivity|]. split; [left; reflexivity|].
    intros Hus. unfold T, microseconds_since_epoch in HT. lia.
  - destruct (int_true_divide_int T 1000000 HT) as (f & n & -> & Hint & Hcases & Hexact); [lia| |].
    { change (Z.log2 1000000) with 19.
      assert (Z.log2 (Z.abs T) < 58) by (apply Z.log2_lt_pow2; lia). lia. }
    cbn [mbind outcome_bind]. rewrite Hint. cbn [mbind outcome_bind].
    exists (Z.sgn T * n). split; [reflexivity|].
    assert (Hquot : Z.quot T 1000000 = Z.sgn T * (Z.abs T / 1000000)).
    { destruct (Z.lt_total T 0) as [Hneg | [? | Hpos]]; [|contradiction|].
      - rewrite (Z.sgn_neg T Hneg), Z.abs_neq by lia.
        rewrite <- (Z.opp_involutive T) at 1. rewrite Z.quot_opp_l by lia.
        rewrite Z.quot_div_nonneg by lia. lia.
      - rewrite (Z.sgn_pos T Hpos), Z.abs_eq by lia.
        rewrite Z.quot_div_nonneg by lia. lia. }
    split.
    + rewrite Hquot. destruct Hcases as [-> | ->]; [left; reflexivity | right].
      assert (Z.sgn T * Z.sgn T = 1) by (destruct (Z.sgn_spec T) as [[? ->]|[[? ->]|[? ->]]]; lia).
      lia.
    + intros Hus. unfold T, microseconds_since_epoch in *. rewrite Hus, Z.add_0_r in *.
      set (S := seconds_since_epoch d) in *.
      assert (Hmod : Z.abs (S * 1000000) mod 1000000 = 0).
      { rewrite Z.abs_mul. apply Z_mod_mult. }
      rewrite (Hexact Hmod). rewrite Z.abs_mul. change (Z.abs 1000000) with 1000000.
      rewrite Z.div_mul by lia.
      rewrite Z.sgn_mul. change (Z.sgn 1000000) with 1. rewrite Z.mul_1_r.
      rewrite Z.mul_comm. apply Z.abs_sgn.
Qed.

(** *** The calendar *)

(** The position of a year in the 400-year cycle. *)
Lemma year_split (y : Z) :
  exists q4 q1 q r,
    y - 1 = 400 * q4 + 100 * q1 + 4 * q + r /\
    0 <= q1 < 4 /\ 0 <= q < 25 /\ 0 <= r < 4 /\
    _days_before_year y = 146097 * q4 + 36524 * q1 + 1461 * q + 365 * r /\
    _is_leap y = (r =? 3) && (negb (q =? 24) || (q1 =? 3)).
Proof.
  pure_context.
  exists ((y - 1) / 400), ((y - 1) mod 400 / 100), ((y - 1) mod 100 / 4), ((y - 1) mod 4).
  unfold _days_before_year, _is_leap. cbv zeta.
  repeat split; try (Z.div_mod_to_equations; lia).
Qed.

Lemma month_cases (m : Z) :
  1 <= m <= 12 ->
  m = 1 \/ m = 2 \/ m = 3 \/ m = 4 \/ m = 5 \/ m = 6 \/
  m = 7 \/ m = 8 \/ m = 9 \/ m = 10 \/ m = 11 \/ m = 12.
Proof. lia. Qed.

Lemma day_cases (d : Z) :
  1 <= d <= 31 ->
  d = 1 \/ d = 2 \/ d = 3 \/ d = 4 \/ d = 5 \/ d = 6 \/ d = 7 \/ d = 8 \/ d = 9 \/ d = 10 \/
  d = 11 \/ d = 12 \/ d = 13 \/ d = 14 \/ d = 15 \/ d = 16 \/ d = 17 \/ d = 18 \/ d = 19 \/
  d = 20 \/ d = 21 \/ d = 22 \/ d = 23 \/ d = 24 \/ d = 25 \/ d = 26 \/ d = 27 \/ d = 28 \/
  d = 29 \/ d = 30 \/ d = 31.
Proof. lia. Qed.

Lemma year_day_bounds (leap : bool) (m d : Z) :
  1 <= m <= 12 -> 1 <= d <= days_in leap m ->
  0 <= year_day leap m d <= 364 + (if leap then 1 else 0) /\
  (year_day leap m d = 365 -> m = 12 /\ d = 31).
Proof.
  intros Hm Hd. unfold year_day.
  destruct (month_cases m Hm) as [-> | [-> | [-> | [-> | [-> | [-> |
    [-> | [-> | [-> | [-> | [-> | ->]]]]]]]]]]];
    destruct leap; cbn in Hd |- *; lia.
Qed.

Lemma _ord2ymd_unfold (n : Z) :
  _ord2ymd n =
  let n0 := n - 1 in
  let n400 := n0 / 146097 in
  let n100 := n0 mod 146097 / 36524 in
  let n4 := (n0 mod 146097) mod 36524 / 1461 in
  let n1 := ((n0 mod 146097) mod 36524) mod 1461 / 365 in
  let n' := (((n0 mod 146097) mod 36524) mod 1461) mod 365 in
  let y := n400 * 400 + 1 + n100 * 100 + n4 * 4 + n1 in
  if (n1 =? 4) || (n100 =? 4) then (y - 1, 12, 31)
  else month_day y ((n1 =? 3) && (negb (n4 =? 24) || (n100 =? 3))) n'.
Proof. reflexivity. Qed.

Lemma month_day_year_day (y : Z) (leap : bool) (m d : Z) :
  1 <= m <= 12 -> 1 <= d <= days_in leap m ->
  month_day y leap (year_day leap m d) = (y, m, d).
Proof.
  intros Hm Hd.
  assert (Hd31 : 1 <= d <= 31).
  { split; [lia|]. destruct Hd as [_ Hd]. unfold days_in in Hd.
    destruct ((m =? 2) && leap); [lia|].
    destruct (month_cases m Hm) as [-> | [-> | [-> | [-> | [-> | [-> | [-> | [-> | [-> | [-> | [-> | ->]]]]]]]]]]]; lia. }
  destruct (month_cases m Hm) as [-> | [-> | [-> | [-> | [-> | [-> | [-> | [-> | [-> | [-> | [-> | ->]]]]]]]]]]];
    destruct leap;
    destruct (day_cases d Hd31) as [-> | [-> | [-> | [-> | [-> | [-> | [-> | [-> | [-> | [-> | [-> | [-> | [-> | [-> | [-> | [-> | [-> | [-> | [-> | [-> | [-> | [-> | [-> | [-> | [-> | [-> | [-> | [-> | [-> | [-> | ->]]]]]]]]]]]]]]]]]]]]]]]]]]]]]];
    first [reflexivity | exfalso; cbn in Hd; lia].
Qed.

Lemma div_mod_known (a b q r : Z) :
  0 <= r < b -> a = b * q + r -> a / b = q /\ a mod b = r.
Proof.
  intros Hr Ha. split; symmetry.
  - apply (Z.div_unique a b q r); [left; exact Hr | exact Ha].
  - apply (Z.mod_unique a b q r); [left; exact Hr | exact Ha].
Qed.

Ltac known_div a b q r :=
  let Hd := fresh "Hdiv" in
  let Hm := fresh "Hmod" in
  destruct (div_mod_known a b q r) as [Hd Hm]; [lia | lia |];
  rewrite ?Hd, ?Hm; clear Hd Hm.

(** [_ord2ymd] inverts [_ymd2ord] on every date of the proleptic calendar. *)
Lemma _ord2ymd_ymd2ord (y m d : Z) :
  1 <= m <= 12 -> 1 <= d <= _days_in_month y m ->
  _ord2ymd (_ymd2ord y m d) = (y, m, d).
Proof.
  intros Hm Hd.
  destruct (year_split y) as (q4 & q1 & q & r & Hy & Hq1 & Hq & Hr & Hdby & Hleap).
  change (_days_in_month y m) with (days_in (_is_leap y) m) in Hd.
  assert (Hord : _ymd2ord y m d - 1 =
                 146097 * q4 + 36524 * q1 + 1461 * q + 365 * r + year_day (_is_leap y) m d).
  { unfold _ymd2ord, _days_before_month, year_day. lia. }
  destruct (year_day_bounds (_is_leap y) m d Hm Hd) as [Ht H365].
  pose proof (month_day_year_day y (_is_leap y) m d Hm Hd) as Hmd.
  set (t := year_day (_is_leap y) m d) in *.
  rewrite _ord2ymd_unfold. cbv zeta. rewrite Hord.
  destruct (Z.eq_dec t 365) as [E365 | N365].
  - destruct (H365 E365) as [-> ->].
    assert (HL : _is_leap y = true) by (destruct (_is_leap y); [reflexivity | lia]).
    rewrite HL in Hleap. symmetry in Hleap.
    apply andb_prop in Hleap. destruct Hleap as [Hr3 Hq24].
    apply Z.eqb_eq in Hr3. subst r.
    destruct (Z.eq_dec q 24) as [-> | Nq].
    + assert (q1 = 3) as -> by (destruct (Z.eqb_spec q1 3); [assumption | discriminate]).
      known_div (146097 * q4 + 36524 * 3 + 1461 * 24 + 365 * 3 + t) 146097 q4 146096.
      change (146096 / 36524) with 4. change (146096 mod 36524) with 0.
      cbn [Z.eqb orb]. change (0 mod 1461) with 0. change (0 / 1461) with 0.
      change (0 / 365) with 0.
      replace (Z.eqb 0 4) with false by reflexivity. cbn. f_equal. f_equal. lia.
    + known_div (146097 * q4 + 36524 * q1 + 1461 * q + 365 * 3 + t) 146097 q4
                (36524 * q1 + 1461 * q + 1460).
      known_div (36524 * q1 + 1461 * q + 1460) 36524 q1 (1461 * q + 1460).
      known_div (1461 * q + 1460) 1461 q 1460.
      change (1460 / 365) with 4. cbn [Z.eqb orb Pos.eqb]. f_equal. f_equal. lia.
  - assert (Ht' : 0 <= t <= 364) by (destruct (_is_leap y); lia).
    known_div (146097 * q4 + 36524 * q1 + 1461 * q + 365 * r + t) 146097 q4
              (36524 * q1 + 1461 * q + 365 * r + t).
    known_div (36524 * q1 + 1461 * q + 365 * r + t) 36524 q1 (1461 * q + 365 * r + t).
    known_div (1461 * q + 365 * r + t) 1461 q (365 * r + t).
    known_div (365 * r + t) 365 r t.
    destruct (Z.eqb_spec r 4); [lia|]. destruct (Z.eqb_spec q1 4); [lia|]. cbn [orb].
    rewrite <- Hleap.
    replace (q4 * 400 + 1 + q1 * 100 + q * 4 + r) with y by lia.
    exact Hmd.
Qed.

(** *** The round trip through epoch seconds *)

Lemma toordinal_bounds (d : datetime) :
  valid_datetime d = true -> 1 <= toordinal d <= _MAXORDINAL.
Proof.
  intros Hv. split_valid Hv.
  destruct (year_split (year d)) as (q4 & q1 & q & r & Hy & Hq1 & Hq & Hr & Hdby & Hleap).
  assert (Hd : 1 <= day d <= days_in (_is_leap (year d)) (month d)) by (split; assumption).
  destruct (year_day_bounds (_is_leap (year d)) (month d) (day d)) as [Ht _]; [lia | exact Hd |].
  assert (Hord : toordinal d = _days_before_year (year d) +
                               year_day (_is_leap (year d)) (month d) (day d) + 1).
  { unfold toordinal, _ymd2ord, _days_before_month, year_day. lia. }
  rewrite Hord, Hdby. unfold _MAXORDINAL.
  destruct (_is_leap (year d)).
  - symmetry in Hleap. apply andb_prop in Hleap. destruct Hleap as [Hr3 _].
    apply Z.eqb_eq in Hr3. lia.
  - lia.
Qed.

Lemma seconds_since_epoch_split (d : datetime) :
  valid_datetime d = true ->
  seconds_since_epoch d / 86400 = toordinal d - toordinal EPOCH /\
  seconds_since_epoch d mod 86400 = hour d * 3600 + minute d * 60 + second d.
Proof.
  intros Hv. split_valid Hv.
  apply div_mod_known; [lia|]. unfold seconds_since_epoch. lia.
Qed.

(** *** The exact value of [to_unix_timestamp] *)

(** The quotient by [10^6] of a scaled count, rounded to nearest and scaled
    back, reaches the next whole number exactly when the count is within
    half a scaled unit of it. *)
Lemma nearest_scaled (F rho P' : Z) :
  0 <= F -> 0 <= rho < 1000000 -> 1 <= P' ->
  div_nearest_even ((F * 1000000 + rho) * (2 * P')) 1000000 / (2 * P') =
  if (1000000 - rho) * (2 * (2 * P')) <=? 1000000 then F + 1 else F.
Proof.
  pure_context. intros HF Hrho HP.
  assert (H1 : 0 <= rho * P') by (apply Z.mul_nonneg_nonneg; lia).
  assert (H2 : rho * P' <= 999999 * P') by (apply Z.mul_le_mono_nonneg_r; lia).
  assert (H3 : 0 <= F * P') by (apply Z.mul_nonneg_nonneg; lia).
  set (x := (F * 1000000 + rho) * (2 * P')).
  assert (Hx : x = 1000000 * (2 * (F * P')) + 2 * (rho * P')) by (subst x; ring).
  pose proof (Z.div_mod x 1000000 ltac:(lia)) as Hdm.
  pose proof (Z.mod_pos_bound x 1000000 ltac:(lia)) as Hmod.
  unfold div_nearest_even. fold x.
  set (q := x / 1000000) in *. set (r := x mod 1000000) in *.
  assert (Hq : 2 * (F * P') <= q <= 2 * (F * P') + 2 * P' - 1) by lia.
  assert (Hdiv : forall m, 2 * (F * P') <= m < 2 * (F * P') + 2 * P' -> m / (2 * P') = F).
  { intros m Hm. symmetry. apply (Z.div_unique m (2 * P') F (m - 2 * (F * P'))); [lia | ring]. }
  assert (Hdiv1 : (2 * (F * P') + 2 * P') / (2 * P') = F + 1).
  { symmetry. apply (Z.div_unique _ (2 * P') (F + 1) 0); [lia | ring]. }
  replace ((1000000 - rho) * (2 * (2 * P'))) with (4 * (1000000 * P' - rho * P')) by ring.
  destruct (Z.leb_spec (4 * (1000000 * P' - rho * P')) 1000000) as [Hup | Hdown].
  - assert (Hq' : q = 2 * (F * P') + 2 * P' - 1) by lia.
    destruct (Z.ltb_spec (2 * r) 1000000); [lia|].
    destruct (Z.ltb_spec 1000000 (2 * r)).
    + replace (q + 1) with (2 * (F * P') + 2 * P') by lia. exact Hdiv1.
    + destruct (Z.even q) eqn:Heven.
      * apply Z.even_spec in Heven. destruct Heven as [w Hw]. lia.
      * replace (q + 1) with (2 * (F * P') + 2 * P') by lia. exact Hdiv1.
  - destruct (Z.ltb_spec (2 * r) 1000000); [apply Hdiv; lia|].
    destruct (Z.ltb_spec 1000000 (2 * r)); [apply Hdiv; lia|].
    destruct (Z.even q); apply Hdiv; lia.
Qed.

(** [log2_quot] is the binary logarithm of the quotient. *)
Lemma log2_quot_spec (a b : Z) :
  0 < b -> 0 < a ->
  (b <= a -> log2_quot a b = Z.log2 (a / b)) /\ (a < b -> log2_quot a b <= -1).
Proof.
  pure_context. intros Hb Ha. unfold log2_quot.
  destruct (Z.log2_spec a Ha) as [Hal Hau]. destruct (Z.log2_spec b Hb) as [Hbl Hbu].
  pose proof (Z.log2_nonneg a) as Hla. pose proof (Z.log2_nonneg b) as Hlb.
  set (la := Z.log2 a) in *. set (lb := Z.log2 b) in *.
  rewrite Z.pow_succ_r in Hau, Hbu by lia.
  split.
  - intros Hle. assert (Hd : 0 <= la - lb) by (pose proof (Z.log2_le_mono b a Hle); lia).
    rewrite (Z.max_r 0 (la - lb)) by lia. rewrite (Z.max_l 0 (- (la - lb))) by lia.
    rewrite Z.pow_0_r, Z.mul_1_r.
    assert (Hsplit : 2 ^ la = 2 ^ lb * 2 ^ (la - lb)).
    { rewrite <- Z.pow_add_r by lia. f_equal. lia. }
    assert (Hpd : 0 < 2 ^ (la - lb)) by (apply Z.pow_pos_nonneg; lia).
    assert (Hpb : 0 < 2 ^ lb) by (apply Z.pow_pos_nonneg; lia).
    destruct (Z.leb_spec (b * 2 ^ (la - lb)) a) as [Ht | Ht].
    + symmetry. apply Z.log2_unique; [lia|]. split.
      * apply Z.div_le_lower_bound; lia.
      * apply Z.div_lt_upper_bound; [lia|]. rewrite Z.pow_succ_r by lia. nia.
    + assert (Hd1 : 1 <= la - lb).
      { destruct (Z.eq_dec (la - lb) 0) as [E|]; [|lia].
        rewrite E, Z.pow_0_r in Ht. lia. }
      assert (Hhalf : 2 ^ (la - lb) = 2 * 2 ^ (la - lb - 1)).
      { rewrite <- Z.pow_succ_r by lia. f_equal. lia. }
      assert (Hph : 0 < 2 ^ (la - lb - 1)) by (apply Z.pow_pos_nonneg; lia).
      symmetry. apply Z.log2_unique; [lia|]. split.
      * apply Z.div_le_lower_bound; [lia|]. nia.
      * apply Z.div_lt_upper_bound; [lia|].
        replace (Z.succ (la - lb - 1)) with (la - lb) by lia. lia.
  - intros Hlt. assert (Hd : la - lb <= 0) by (pose proof (Z.log2_le_mono a b ltac:(lia)); lia).
    rewrite (Z.max_l 0 (la - lb)) by lia. rewrite (Z.max_r 0 (- (la - lb))) by lia.
    destruct (Z.leb_spec (b * 2 ^ 0) (a * 2 ^ (- (la - lb)))) as [Ht | Ht]; [|lia].
    destruct (Z.eq_dec (la - lb) 0) as [E | E]; [|lia].
    exfalso. rewrite E in Ht. change (2 ^ (- 0)) with 1 in Ht. change (2 ^ 0) with 1 in Ht. lia.
Qed.

(** [int (a / b)] as the nearest scaled quotient, scaled back. *)
Lemma int_true_divide_trunc (a b : Z) :
  a <> 0 -> 0 < b -> -1022 <= log2_quot (Z.abs a) b <= 52 ->
  exists f,
    int_true_divide a b = Ok f /\
    int_of_float f =
      Ok (Z.sgn a * (div_nearest_even (Z.abs a * 2 ^ (52 - log2_quot (Z.abs a) b)) b /
                     2 ^ (52 - log2_quot (Z.abs a) b))).
Proof.
  pure_context. intros Ha Hb Hlog. unfold int_true_divide.
  destruct (Z.eqb_spec a 0) as [|_]; [contradiction|].
  set (a' := Z.abs a) in *.
  assert (Ha' : 0 < a') by (subst a'; lia).
  rewrite (Z.max_l (log2_quot a' b - 52) (-1074)) by lia.
  set (e := log2_quot a' b - 52).
  assert (He : e <= 0) by (subst e; lia).
  replace (52 - log2_quot a' b) with (- e) by (subst e; lia).
  set (m := if 0 <=? e then div_nearest_even a' (b * 2 ^ e)
            else div_nearest_even (a' * 2 ^ (- e)) b).
  assert (Hp : 0 < 2 ^ (- e)) by (apply Z.pow_pos_nonneg; lia).
  assert (Hm : m = div_nearest_even (a' * 2 ^ (- e)) b).
  { subst m. destruct (Z.leb_spec 0 e); [|reflexivity].
    assert (e = 0) as -> by lia. simpl. rewrite !Z.mul_1_r. reflexivity. }
  clearbody m. rewrite <- Hm.
  pose proof (trunc_renormalised m e He) as Htr.
  assert (Hx0 : 0 <= a' * 2 ^ (- e) / b) by (apply Z.div_pos; lia).
  assert (Hm0 : 0 <= m).
  { rewrite Hm. destruct (div_nearest_even_cases (a' * 2 ^ (- e)) b) as [E | E]; rewrite E; lia. }
  destruct (if m =? 2 ^ 53 then (2 ^ 52, e + 1) else (m, e)) as [m' e'] eqn:Hnorm.
  assert (Hm' : 0 <= m' /\ (m' = 0 -> m = 0) /\ e' <= 1).
  { destruct (m =? 2 ^ 53) eqn:E53; injection Hnorm as <- <-; lia. }
  destruct (Z.eqb_spec m' 0) as [Hz | Hnz].
  - exists (S754_zero (a <? 0)). split; [reflexivity|].
    assert (m = 0) as -> by (apply Hm'; exact Hz).
    rewrite Z.div_0_l by lia. cbn [int_of_float]. f_equal. lia.
  - destruct (Z.ltb_spec 971 e'); [lia|].
    exists (S754_finite (a <? 0) (Z.to_pos m') e').
    split; [reflexivity|].
    cbn [int_of_float]. rewrite Z2Pos.id by lia. rewrite Htr. f_equal.
    destruct (Z.ltb_spec a 0); lia.
Qed.

(** On a naive datetime [to_unix_timestamp] gives the microseconds since
    [EPOCH] divided by [10^6] and truncated toward zero, and one more away
    from zero exactly when the binary64 quotient is the next whole
    number. *)
Lemma to_unix_timestamp_exact (d : datetime) :
  valid_datetime d = true -> utcoffset d = None ->
  to_unix_timestamp (VDatetime d) =
  Ok (VInt (Z.quot (microseconds_since_epoch d) 1000000 +
            (if rounds_to_next_second (Z.abs (microseconds_since_epoch d))
             then Z.sgn (microseconds_since_epoch d) else 0))).
Proof.
  pure_context. intros Hv Hn. unfold to_unix_timestamp. cbn [truthy].
  destruct (datetime_sub_naive d Hn) as (td & -> & Htd). cbn [mbind outcome_bind].
  unfold total_seconds. rewrite Htd.
  pose proof (microseconds_since_epoch_bounds d Hv) as Hb.
  set (T := microseconds_since_epoch d) in *.
  destruct (Z.eq_dec T 0) as [HT | HT]; [rewrite HT; reflexivity|].
  set (a := Z.abs T) in *.
  assert (Ha : 0 < a) by (subst a; lia).
  destruct (log2_quot_spec a 1000000 ltac:(lia) Ha) as [Hge Hlt].
  pose proof (log2_quot_le a 1000000) as Hle.
  assert (Hla : 0 <= Z.log2 a < 58).
  { split; [apply Z.log2_nonneg | apply Z.log2_lt_pow2; lia]. }
  change (Z.log2 1000000) with 19 in Hle.
  assert (HL : -21 <= log2_quot a 1000000 <= 38).
  { split; [|lia]. unfold log2_quot. change (Z.log2 1000000) with 19.
    destruct (_ <=? _); lia. }
  destruct (int_true_divide_trunc T 1000000 HT ltac:(lia) ltac:(fold a; lia)) as (f & -> & Hint).
  cbn [mbind outcome_bind]. rewrite Hint. cbn [mbind outcome_bind]. fold a.
  set (L := log2_quot a 1000000) in *.
  pose proof (Z.div_mod a 1000000 ltac:(lia)) as Hdm.
  pose proof (Z.mod_pos_bound a 1000000 ltac:(lia)) as Hmod.
  assert (HF : 0 <= a / 1000000) by (apply Z.div_pos; lia).
  assert (Hpow : 2 ^ (52 - L) = 2 * 2 ^ (51 - L)).
  { rewrite <- Z.pow_succ_r by lia. f_equal. lia. }
  assert (HP' : 1 <= 2 ^ (51 - L)).
  { assert (0 < 2 ^ (51 - L)) by (apply Z.pow_pos_nonneg; lia). lia. }
  replace (a * 2 ^ (52 - L))
    with ((a / 1000000 * 1000000 + a mod 1000000) * (2 * 2 ^ (51 - L)))
    by (rewrite Hpow; rewrite Hdm at 3; ring).
  rewrite Hpow at 1. rewrite (nearest_scaled _ _ _ HF Hmod HP').
  assert (Hpow2 : 2 * (2 * 2 ^ (51 - L)) = 2 ^ (53 - L)).
  { rewrite <- !Z.pow_succ_r by lia. f_equal. lia. }
  rewrite Hpow2.
  assert (Hquot : Z.quot T 1000000 = Z.sgn T * (a / 1000000)).
  { subst a. destruct (Z.lt_total T 0) as [Hneg | [? | Hpos]]; [|contradiction|].
    - rewrite (Z.sgn_neg T Hneg), Z.abs_neq by lia.
      rewrite <- (Z.opp_involutive T) at 1. rewrite Z.quot_opp_l by lia.
      rewrite Z.quot_div_nonneg by lia. lia.
    - rewrite (Z.sgn_pos T Hpos), Z.abs_eq by lia.
      rewrite Z.quot_div_nonneg by lia. lia. }
  rewrite Hquot. do 2 f_equal. unfold rounds_to_next_second. cbv zeta.
  destruct (Z.leb_spec 1 (a / 1000000)) as [H1 | H1]; cbn [andb].
  - rewrite <- (Hge ltac:(lia)). fold L.
    destruct (_ <=? 1000000); lia.
  - assert (L <= -1) by (apply Hlt; lia).
    assert (Hbig : 2 ^ 54 <= 2 ^ (53 - L)) by (apply Z.pow_le_mono_r; lia).
    change (2 ^ 54) with 18014398509481984 in Hbig.
    destruct (Z.leb_spec ((1000000 - a mod 1000000) * 2 ^ (53 - L)) 1000000); [nia | lia].
Qed.

(** Within [2^34] seconds of [EPOCH] the quotient never rounds up. *)
Lemma rounds_to_next_second_near (a : Z) :
  0 <= a < 2 ^ 34 * 1000000 -> rounds_to_next_second a = false.
Proof.
  pure_context. intros Ha. unfold rounds_to_next_second. cbv zeta.
  destruct (Z.leb_spec 1 (a / 1000000)) as [H1 | H1]; [|reflexivity]. cbn [andb].
  assert (HF : a / 1000000 < 2 ^ 34) by (apply Z.div_lt_upper_bound; lia).
  assert (Hlog : Z.log2 (a / 1000000) < 34) by (apply Z.log2_lt_pow2; lia).
  pose proof (Z.mod_pos_bound a 1000000 ltac:(lia)) as Hmod.
  assert (Hbig : 2 ^ 20 <= 2 ^ (53 - Z.log2 (a / 1000000))) by (apply Z.pow_le_mono_r; lia).
  change (2 ^ 20) with 1048576 in Hbig.
  destruct (Z.leb_spec ((1000000 - a mod 1000000) * 2 ^ (53 - Z.log2 (a / 1000000))) 1000000);
    [nia | reflexivity].
Qed.


(** C9. [to_unix_timestamp] by kind of input: a falsy value gives [None]; a
    truthy value that is not a datetime raises [ValueError]; a datetime that
    carries a UTC offset raises [TypeError]; a naive datetime gives an
    integer, which is the quotient of the microseconds since [EPOCH] by
    [10^6] truncated toward zero, plus one unit away from zero exactly when
    the binary64 value nearest to the quotient is the next whole number.  It
    is exactly the seconds since [EPOCH] when the datetime has no
    microseconds, and the truncated quotient for every datetime within
    [2^34] seconds of [EPOCH]. *)
Theorem C9_to_unix_timestamp_by_kind :
  (forall val, truthy val = false -> to_unix_timestamp val = Ok VNone) /\
  (forall val, truthy val = true -> (forall d, val <> VDatetime d) ->
               to_unix_timestamp val = Raise ValueError) /\
  (forall d o, utcoffset d = Some o -> to_unix_timestamp (VDatetime d) = Raise TypeError) /\
  (forall d, valid_datetime d = true -> utcoffset d = None ->
     to_unix_timestamp (VDatetime d) =
       Ok (VInt (Z.quot (microseconds_since_epoch d) 1000000 +
                 (if rounds_to_next_second (Z.abs (microseconds_since_epoch d))
                  then Z.sgn (microseconds_since_epoch d) else 0))) /\
     (microsecond d = 0 ->
      to_unix_timestamp (VDatetime d) = Ok (VInt (seconds_since_epoch d))) /\
     (Z.abs (microseconds_since_epoch d) < 2 ^ 34 * 1000000 ->
      to_unix_timestamp (VDatetime d) =
        Ok (VInt (Z.quot (microseconds_since_epoch d) 1000000)))).
Proof.
  pure_context.
  split; [|split; [|split]].
  - intros val Hf. unfold to_unix_timestamp. rewrite Hf. reflexivity.
  - intros val Ht Hnd. unfold to_unix_timestamp. rewrite Ht.
    destruct val; try reflexivity. destruct (Hnd d). reflexivity.
  - intros d o Ha. unfold to_unix_timestamp. cbn [truthy].
    rewrite (datetime_sub_aware d o Ha). reflexivity.
  - intros d Hv Hn. split; [exact (to_unix_timestamp_exact d Hv Hn)|]. split.
    + intros Hus. destruct (to_unix_timestamp_naive d Hv Hn) as (n & -> & _ & Hexact).
      rewrite (Hexact Hus). reflexivity.
    + intros Hnear. rewrite (to_unix_timestamp_exact d Hv Hn).
      rewrite rounds_to_next_second_near by lia. rewrite Z.add_0_r. reflexivity.
Qed.


(** *** Extensions: the calendar in the other direction *)

Lemma year_parts (a b c e : Z) :
  0 <= b < 4 -> 0 <= c < 25 -> 0 <= e < 4 ->
  _days_before_year (400 * a + 100 * b + 4 * c + e + 1) =
    146097 * a + 36524 * b + 1461 * c + 365 * e /\
  _is_leap (400 * a + 100 * b + 4 * c + e + 1) = (e =? 3) && (negb (c =? 24) || (b =? 3)).
Proof.
  pure_context. intros Hb Hc He. unfold _days_before_year, _is_leap. cbv zeta.
  split; Z.div_mod_to_equations; lia.
Qed.

(** Every day of a year is the day of some month. *)
Lemma year_day_onto (leap : bool) (t : Z) :
  0 <= t <= 364 + (if leap then 1 else 0) ->
  exists m d, 1 <= m <= 12 /\ 1 <= d <= days_in leap m /\ year_day leap m d = t.
Proof.
  pure_context. intros Ht. unfold year_day.
  destruct leap.
  - assert (t < 31 \/ 31 <= t < 60 \/ 60 <= t < 91 \/ 91 <= t < 121 \/ 121 <= t < 152 \/
            152 <= t < 182 \/ 182 <= t < 213 \/ 213 <= t < 244 \/ 244 <= t < 274 \/
            274 <= t < 305 \/ 305 <= t < 335 \/ 335 <= t) as Hc by lia.
    destruct Hc as [H|[H|[H|[H|[H|[H|[H|[H|[H|[H|[H|H]]]]]]]]]]].
    + exists 1, (t + 1). cbn. lia.
    + exists 2, (t - 30). cbn. lia.
    + exists 3, (t - 59). cbn. lia.
    + exists 4, (t - 90). cbn. lia.
    + exists 5, (t - 120). cbn. lia.
    + exists 6, (t - 151). cbn. lia.
    + exists 7, (t - 181). cbn. lia.
    + exists 8, (t - 212). cbn. lia.
    + exists 9, (t - 243). cbn. lia.
    + exists 10, (t - 273). cbn. lia.
    + exists 11, (t - 304). cbn. lia.
    + exists 12, (t - 334). cbn. lia.
  - assert (t < 31 \/ 31 <= t < 59 \/ 59 <= t < 90 \/ 90 <= t < 120 \/ 120 <= t < 151 \/
            151 <= t < 181 \/ 181 <= t < 212 \/ 212 <= t < 243 \/ 243 <= t < 273 \/
            273 <= t < 304 \/ 304 <= t < 334 \/ 334 <= t) as Hc by lia.
    destruct Hc as [H|[H|[H|[H|[H|[H|[H|[H|[H|[H|[H|H]]]]]]]]]]].
    + exists 1, (t + 1). cbn. lia.
    + exists 2, (t - 30). cbn. lia.
    + exists 3, (t - 58). cbn. lia.
    + exists 4, (t - 89). cbn. lia.
    + exists 5, (t - 119). cbn. lia.
    + exists 6, (t - 150). cbn. lia.
    + exists 7, (t - 180). cbn. lia.
    + exists 8, (t - 211). cbn. lia.
    + exists 9, (t - 242). cbn. lia.
    + exists 10, (t - 272). cbn. lia.
    + exists 11, (t - 303). cbn. lia.
    + exists 12, (t - 333). cbn. lia.
Qed.

(** Every count of days splits into 400-year cycles, centuries, 4-year
    cycles, years and a day of the year. *)
Lemma days_split (N : Z) :
  exists a b c e t,
    0 <= b < 4 /\ 0 <= c < 25 /\ 0 <= e < 4 /\
    N = 146097 * a + 36524 * b + 1461 * c + 365 * e + t /\
    0 <= t <= 364 + (if (e =? 3) && (negb (c =? 24) || (b =? 3)) then 1 else 0).
Proof.
  pure_context.
  set (a := N / 146097). set (R1 := N mod 146097).
  assert (H1 : N = 146097 * a + R1 /\ 0 <= R1 < 146097)
    by (subst a R1; Z.div_mod_to_equations; lia).
  destruct (Z.eq_dec (R1 / 36524) 4) as [Hb4 | Hb4].
  { exists a, 3, 24, 3, 365. cbn. repeat split; try lia.
    Z.div_mod_to_equations. lia. }
  set (b := R1 / 36524) in *. set (R2 := R1 mod 36524).
  assert (H2 : R1 = 36524 * b + R2 /\ 0 <= R2 < 36524 /\ 0 <= b < 4)
    by (subst b R2; Z.div_mod_to_equations; lia).
  set (c := R2 / 1461). set (R3 := R2 mod 1461).
  assert (H3 : R2 = 1461 * c + R3 /\ 0 <= R3 < 1461 /\ 0 <= c < 25)
    by (subst c R3; Z.div_mod_to_equations; lia).
  destruct (Z.eq_dec (R3 / 365) 4) as [He4 | He4].
  { assert (R3 = 1460) by (Z.div_mod_to_equations; lia).
    exists a, b, c, 3, 365. repeat split; try lia.
    destruct (Z.eqb_spec c 24); [lia|]. cbn. lia. }
  set (e := R3 / 365) in *. set (t := R3 mod 365).
  assert (H4 : R3 = 365 * e + t /\ 0 <= t < 365 /\ 0 <= e < 4)
    by (subst e t; Z.div_mod_to_equations; lia).
  exists a, b, c, e, t. repeat split; try lia.
  destruct ((e =? 3) && (negb (c =? 24) || (b =? 3))); lia.
Qed.

(** Every ordinal from 1 on is the ordinal of a date, and of a date up to
    [MAXYEAR] when it is at most [_MAXORDINAL]. *)
Lemma _ymd2ord_onto (n : Z) :
  1 <= n ->
  exists y m d,
    1 <= y /\ (n <= _MAXORDINAL -> y <= MAXYEAR) /\
    1 <= m <= 12 /\ 1 <= d <= _days_in_month y m /\ _ymd2ord y m d = n.
Proof.
  pure_context. intros Hn.
  destruct (days_split (n - 1)) as (a & b & c & e & t & Hb & Hc & He & HN & Ht).
  destruct (year_parts a b c e Hb Hc He) as [Hdby Hleap].
  rewrite <- Hleap in Ht.
  destruct (year_day_onto _ t Ht) as (m & d & Hm & Hd & Hyd).
  exists (400 * a + 100 * b + 4 * c + e + 1), m, d.
  assert (Ha : 0 <= a).
  { destruct (_is_leap (400 * a + 100 * b + 4 * c + e + 1)); lia. }
  split; [lia|]. split.
  { unfold _MAXORDINAL, MAXYEAR. intros Hmax.
    destruct (_is_leap (400 * a + 100 * b + 4 * c + e + 1)); lia. }
  split; [exact Hm|]. split; [exact Hd|].
  unfold _ymd2ord, _days_before_month. rewrite Hdby.
  unfold year_day in Hyd. lia.
Qed.

(** [_ord2ymd] gives a date of the calendar, and [_ymd2ord] takes it back. *)
Lemma _ymd2ord_ord2ymd (n : Z) :
  1 <= n ->
  exists y m d,
    _ord2ymd n = (y, m, d) /\
    1 <= y /\ (n <= _MAXORDINAL -> y <= MAXYEAR) /\
    1 <= m <= 12 /\ 1 <= d <= _days_in_month y m /\ _ymd2ord y m d = n.
Proof.
  pure_context. intros Hn.
  destruct (_ymd2ord_onto n Hn) as (y & m & d & Hy & Hmax & Hm & Hd & Hord).
  exists y, m, d. rewrite <- Hord at 1.
  rewrite (_ord2ymd_ymd2ord y m d Hm Hd). rewrite Hord. tauto.
Qed.


(** *** Extensions: decoding epoch seconds *)

Lemma seconds_of_day_fields (s : Z) :
  0 <= s < 86400 ->
  0 <= s / 3600 <= 23 /\ 0 <= s mod 3600 / 60 <= 59 /\ 0 <= s mod 60 <= 59 /\
  s / 3600 * 3600 + s mod 3600 / 60 * 60 + s mod 60 = s.
Proof. pure_context. intros Hs. Z.div_mod_to_equations. lia. Qed.

(** [_ord2ymd] on any ordinal: a month and a day of the calendar, in a year
    that is in [MINYEAR..MAXYEAR] exactly for the ordinals from 1 to
    [_MAXORDINAL]. *)
Lemma _ord2ymd_total (n : Z) :
  exists y m d,
    _ord2ymd n = (y, m, d) /\
    1 <= m <= 12 /\ 1 <= d <= _days_in_month y m /\ _ymd2ord y m d = n /\
    (1 <= y <-> 1 <= n) /\ (y <= MAXYEAR <-> n <= _MAXORDINAL).
Proof.
  pure_context.
  destruct (days_split (n - 1)) as (a & b & c & e & t & Hb & Hc & He & HN & Ht).
  destruct (year_parts a b c e Hb Hc He) as [Hdby Hleap].
  rewrite <- Hleap in Ht.
  destruct (year_day_onto _ t Ht) as (m & d & Hm & Hd & Hyd).
  set (y := 400 * a + 100 * b + 4 * c + e + 1) in *.
  assert (Hord : _ymd2ord y m d = n).
  { unfold _ymd2ord, _days_before_month. rewrite Hdby. unfold year_day in Hyd. lia. }
  exists y, m, d. rewrite <- Hord at 1.
  rewrite (_ord2ymd_ymd2ord y m d Hm Hd).
  split; [reflexivity|]. split; [exact Hm|]. split; [exact Hd|]. split; [exact Hord|].
  unfold MAXYEAR, _MAXORDINAL.
  destruct (_is_leap y).
  - symmetry in Hleap. apply andb_prop in Hleap. destruct Hleap as [He3 _].
    apply Z.eqb_eq in He3. subst y. split; lia.
  - subst y. split; lia.
Qed.

Lemma in_calendar_ordinal (u : Z) :
  in_calendar u <-> 1 <= 719163 + u / 86400 <= _MAXORDINAL.
Proof.
  pure_context. unfold in_calendar, _MAXORDINAL. split; intros H; Z.div_mod_to_equations; lia.
Qed.

(** [local] returns exactly on the instants whose local reading lies in the
    calendar, and then gives that reading counted from the start of year 1. *)
Lemma local_spec (t : Z) :
  (in_calendar (t + localtime_utcoffset t) ->
   local t = Ok (62135683200 + (t + localtime_utcoffset t))) /\
  (~ in_calendar (t + localtime_utcoffset t) -> exists e, local t = Raise e).
Proof.
  unfold local, localtime. set (u := t + localtime_utcoffset t).
  change (toordinal EPOCH) with 719163.
  destruct (_ord2ymd_total (719163 + u / 86400)) as (y & m & d & -> & Hm & Hd & Hord & Hy1 & Hy2).
  pose proof (in_calendar_ordinal u) as Hcal. unfold MAXYEAR in Hy2.
  assert (Hs : 0 <= u mod 86400 < 86400) by (apply Z.mod_pos_bound; lia).
  destruct (seconds_of_day_fields _ Hs) as (Hh & Hmi & Hse & Hsum).
  split.
  - intros Hin. apply Hcal in Hin.
    assert (Hy : 1 <= y <= 9999) by (split; [apply Hy1 | apply Hy2]; lia).
    assert (Hint : (- 2 ^ 31 <=? y - 1900) && (y - 1900 <? 2 ^ 31) = true).
    { apply andb_true_intro. split; [apply Z.leb_le | apply Z.ltb_lt];
        change (2 ^ 31) with 2147483648; lia. }
    rewrite Hint. cbn [mbind outcome_bind]. unfold utc_to_seconds, MINYEAR, MAXYEAR.
    destruct (Z.ltb_spec y 1); [lia|]. destruct (Z.ltb_spec 9999 y); [lia|].
    cbn [orb]. rewrite Hord. f_equal.
    pose proof (Z.div_mod u 86400 ltac:(lia)). lia.
  - intros Hout.
    destruct ((- 2 ^ 31 <=? y - 1900) && (y - 1900 <? 2 ^ 31)); [|eauto].
    cbn [mbind outcome_bind]. unfold utc_to_seconds, MINYEAR, MAXYEAR.
    destruct (Z.ltb_spec y 1); [cbn [orb]; eauto|].
    destruct (Z.ltb_spec 9999 y); [cbn [orb]; eauto|].
    exfalso. apply Hout, Hcal. split; [apply Hy1 | apply Hy2]; lia.
Qed.

(** The fields [localtime] gives, when [utc_to_seconds] accepts them, make a
    datetime the constructor accepts, and it reads the local clock. *)
Lemma localtime_fields (t y m d hh mm ss rs : Z) :
  localtime t = Ok (y, m, d, hh, mm, ss) ->
  utc_to_seconds y m d hh mm ss = Ok rs ->
  valid_datetime (mkdatetime y m d hh mm ss 0 None) = true /\
  seconds_since_epoch (mkdatetime y m d hh mm ss 0 None) = t + localtime_utcoffset t /\
  rs = 62135683200 + (t + localtime_utcoffset t) /\
  in_calendar (t + localtime_utcoffset t).
Proof.
  unfold localtime. set (u := t + localtime_utcoffset t).
  change (toordinal EPOCH) with 719163.
  destruct (_ord2ymd_total (719163 + u / 86400))
    as (y' & m' & d' & -> & Hm & Hd & Hord & Hy1 & Hy2).
  unfold MAXYEAR in Hy2.
  destruct ((- 2 ^ 31 <=? y' - 1900) && (y' - 1900 <? 2 ^ 31)); [|discriminate].
  intros [= <- <- <- <- <- <-].
  unfold utc_to_seconds, MINYEAR, MAXYEAR.
  destruct (Z.ltb_spec y' 1); [discriminate|].
  destruct (Z.ltb_spec 9999 y'); [discriminate|]. cbn [orb]. intros [= <-].
  assert (Hs : 0 <= u mod 86400 < 86400) by (apply Z.mod_pos_bound; lia).
  destruct (seconds_of_day_fields _ Hs) as (Hh & Hmi & Hse & Hsum).
  pose proof (Z.div_mod u 86400 ltac:(lia)) as Hdm.
  split; [|split; [|split]].
  - unfold valid_datetime, MINYEAR, MAXYEAR.
    cbn [year month day hour minute second microsecond].
    repeat (apply andb_true_intro; split); apply Z.leb_le; lia.
  - unfold seconds_since_epoch. change (toordinal EPOCH) with 719163.
    unfold toordinal. cbn [year month day hour minute second]. rewrite Hord. lia.
  - rewrite Hord. lia.
  - apply in_calendar_ordinal. unfold _MAXORDINAL. split; [apply Hy1 | apply Hy2]; lia.
Qed.

(** What [fromtimestamp] gives for an integer is a datetime the constructor
    accepts, naive and without microseconds, that reads the instant shifted
    by the local offset. *)
Lemma fromtimestamp_int_decodes (n : Z) (dt : datetime) :
  fromtimestamp_int n = Ok dt ->
  valid_datetime dt = true /\ utcoffset dt = None /\ microsecond dt = 0 /\
  seconds_since_epoch dt = n + localtime_utcoffset n.
Proof.
  unfold fromtimestamp_int.
  destruct ((- 2 ^ 63 <=? n) && (n <? 2 ^ 63)); [|discriminate].
  destruct (localtime n) as [[[[[[y m] d] hh] mm] ss]|] eqn:Hlt; [|discriminate].
  cbn [mbind outcome_bind].
  destruct (utc_to_seconds y m d hh mm ss) as [rs|] eqn:Hrs; [|discriminate].
  cbn [mbind outcome_bind].
  destruct (local (n - max_fold_seconds)) as [ps|]; [|discriminate].
  cbn [mbind outcome_bind].
  destruct (if rs - ps - max_fold_seconds <? 0 then local (n + (rs - ps - max_fold_seconds))
            else Ok 0); [|discriminate].
  cbn [mbind outcome_bind]. intros [= <-].
  destruct (localtime_fields _ _ _ _ _ _ _ _ Hlt Hrs) as (Hv & Hsec & _ & _).
  split; [exact Hv|]. split; [reflexivity|]. split; [reflexivity|]. exact Hsec.
Qed.

(** [fromtimestamp] returns for an integer that fits [time_t] exactly when
    the local reading of the instant and the readings probed for [fold] lie
    in the calendar. *)
Lemma fromtimestamp_int_returns (n : Z) :
  - 2 ^ 63 <= n < 2 ^ 63 ->
  (returns (fromtimestamp_int n) <->
   in_calendar (n + localtime_utcoffset n) /\ fold_probes_in_calendar n).
Proof.
  intros Hn. unfold fromtimestamp_int, returns, fold_probes_in_calendar.
  destruct (Z.leb_spec (- 2 ^ 63) n); [|lia].
  destruct (Z.ltb_spec n (2 ^ 63)); [|lia]. cbn [andb].
  unfold max_fold_seconds. change (24 * 3600) with 86400.
  destruct (local_spec (n - 86400)) as [Hp_in Hp_out].
  set (o := localtime_utcoffset n) in *. set (o1 := localtime_utcoffset (n - 86400)) in *.
  destruct (localtime n) as [[[[[[y m] d] hh] mm] ss]|] eqn:Hlt.
  2:{ cbn [mbind outcome_bind]. split; [intros [? ?]; discriminate|].
      intros [Hin _]. destruct (local_spec n) as [Hl _]. specialize (Hl Hin).
      unfold local in Hl. rewrite Hlt in Hl. discriminate. }
  cbn [mbind outcome_bind].
  destruct (utc_to_seconds y m d hh mm ss) as [rs|] eqn:Hrs.
  2:{ cbn [mbind outcome_bind]. split; [intros [? ?]; discriminate|].
      intros [Hin _]. destruct (local_spec n) as [Hl _]. specialize (Hl Hin).
      unfold local in Hl. rewrite Hlt in Hl. cbn [mbind outcome_bind] in Hl.
      rewrite Hrs in Hl. discriminate. }
  cbn [mbind outcome_bind].
  destruct (localtime_fields _ _ _ _ _ _ _ _ Hlt Hrs) as (_ & _ & -> & Hin). fold o in Hin |- *.
  assert (Hdec : in_calendar (n - 86400 + o1) \/ ~ in_calendar (n - 86400 + o1))
    by (unfold in_calendar; lia).
  destruct Hdec as [Hp | Hp].
  2:{ destruct (Hp_out Hp) as [e ->]. cbn [mbind outcome_bind].
      split; [intros [? ?]; discriminate | intros [_ [? _]]; contradiction]. }
  rewrite (Hp_in Hp). cbn [mbind outcome_bind].
  replace (62135683200 + (n + o) - (62135683200 + (n - 86400 + o1)) - 86400) with (o - o1) by lia.
  destruct (Z.ltb_spec (o - o1) 0) as [Htr | Htr].
  - destruct (local_spec (n + (o - o1))) as [Ht_in Ht_out].
    assert (Hdec : in_calendar (n + (o - o1) + localtime_utcoffset (n + (o - o1))) \/
                   ~ in_calendar (n + (o - o1) + localtime_utcoffset (n + (o - o1))))
      by (unfold in_calendar; lia).
    destruct Hdec as [Ht | Ht].
    + rewrite (Ht_in Ht). cbn [mbind outcome_bind]. split; [|eauto].
      intros _. split; [exact Hin|]. split; [exact Hp|]. intros _. exact Ht.
    + destruct (Ht_out Ht) as [e ->]. cbn [mbind outcome_bind].
      split; [intros [? ?]; discriminate|].
      intros [_ [_ Hthird]]. exfalso. apply Ht, Hthird. lia.
  - cbn [mbind outcome_bind]. split; [|eauto].
    intros _. split; [exact Hin|]. split; [exact Hp|]. intros Hlt'. lia.
Qed.

Lemma seconds_since_epoch_inj (d1 d2 : datetime) :
  valid_datetime d1 = true -> valid_datetime d2 = true ->
  seconds_since_epoch d1 = seconds_since_epoch d2 ->
  year d1 = year d2 /\ month d1 = month d2 /\ day d1 = day d2 /\
  hour d1 = hour d2 /\ minute d1 = minute d2 /\ second d1 = second d2.
Proof.
  pure_context. intros Hv1 Hv2 Hs.
  destruct (seconds_since_epoch_split d1 Hv1) as [Hdiv1 Hmod1].
  destruct (seconds_since_epoch_split d2 Hv2) as [Hdiv2 Hmod2].
  rewrite Hs in Hdiv1, Hmod1.
  assert (Hord : toordinal d1 = toordinal d2) by lia.
  assert (Hsod : hour d1 * 3600 + minute d1 * 60 + second d1 =
                 hour d2 * 3600 + minute d2 * 60 + second d2) by lia.
  split_valid Hv1. split_valid Hv2.
  assert (Hymd : (year d1, month d1, day d1) = (year d2, month d2, day d2)).
  { rewrite <- (_ord2ymd_ymd2ord (year d1) (month d1) (day d1)) by lia.
    rewrite <- (_ord2ymd_ymd2ord (year d2) (month d2) (day d2)) by lia.
    unfold toordinal in Hord. rewrite Hord. reflexivity. }
  injection Hymd as -> -> ->. repeat split; lia.
Qed.


Lemma seconds_since_epoch_in_calendar (d : datetime) :
  valid_datetime d = true -> in_calendar (seconds_since_epoch d).
Proof.
  pure_context. intros Hv.
  pose proof (toordinal_bounds d Hv) as Hord. unfold _MAXORDINAL in Hord.
  split_valid Hv. unfold in_calendar, seconds_since_epoch.
  change (toordinal EPOCH) with 719163. lia.
Qed.

(** Decoding the epoch seconds of a whole-second naive datetime, in a zone
    whose offset is zero at that instant and where the readings probed for
    [fold] lie in the calendar, gives the datetime back. *)
Lemma fromtimestamp_int_seconds (d : datetime) :
  valid_datetime d = true -> utcoffset d = None -> microsecond d = 0 ->
  localtime_utcoffset (seconds_since_epoch d) = 0 ->
  fold_probes_in_calendar (seconds_since_epoch d) ->
  fromtimestamp_int (seconds_since_epoch d) = Ok d.
Proof.
  intros Hv Hn Hus Hzone Hprobes.
  pose proof (seconds_since_epoch_in_calendar d Hv) as Hin.
  assert (Hfit : - 2 ^ 63 <= seconds_since_epoch d < 2 ^ 63).
  { unfold in_calendar in Hin. change (2 ^ 63) with 9223372036854775808. lia. }
  destruct (proj2 (fromtimestamp_int_returns _ Hfit)) as [dt Hdt].
  { split; [|exact Hprobes]. rewrite Hzone, Z.add_0_r. exact Hin. }
  rewrite Hdt. f_equal.
  destruct (fromtimestamp_int_decodes _ _ Hdt) as (Hv' & Hn' & Hus' & Hsec).
  rewrite Hzone, Z.add_0_r in Hsec.
  destruct (seconds_since_epoch_inj dt d Hv' Hv Hsec) as (? & ? & ? & ? & ? & ?).
  destruct d, dt; simpl in *; subst; reflexivity.
Qed.

(** The round trip holds in a local zone whose offset is zero at the instant
    converted, when the readings probed for [fold] lie in the calendar. *)
Lemma roundtrip_zero_offset (d : datetime) :
  valid_datetime d = true -> utcoffset d = None -> microsecond d = 0 ->
  localtime_utcoffset (seconds_since_epoch d) = 0 ->
  fold_probes_in_calendar (seconds_since_epoch d) ->
  (to_unix_timestamp (VDatetime d) ≫= from_unix_timestamp) = Ok d.
Proof.
  intros Hv Hn Hus Hzone Hprobes.
  destruct (to_unix_timestamp_naive d Hv Hn) as (n & -> & _ & Hexact).
  rewrite (Hexact Hus). cbn [mbind outcome_bind from_unix_timestamp fromtimestamp].
  apply fromtimestamp_int_seconds; assumption.
Qed.


(** *** Extensions: the order of datetimes *)

Lemma _days_before_year_next (y : Z) :
  _days_before_year (y + 1) =
  _days_before_year y + 365 + (if _is_leap y then 1 else 0).
Proof.
  pure_context. destruct (_is_leap y) eqn:Hleap; unfold _is_leap in Hleap;
    unfold _days_before_year; cbv zeta; Z.div_mod_to_equations; lia.
Qed.

Lemma _days_before_year_mono (y1 y2 : Z) :
  y1 <= y2 -> _days_before_year y1 <= _days_before_year y2.
Proof.
  pure_context. intros Hy. unfold _days_before_year. cbv zeta.
  rewrite <- !(Z.div_div _ 4 25) by lia.
  rewrite <- !(Z.div_div _ 4 100) by lia.
  Z.div_mod_to_equations. lia.
Qed.

Lemma year_day_month_mono (leap : bool) (m1 d1 m2 d2 : Z) :
  1 <= m1 <= 12 -> 1 <= d1 <= days_in leap m1 ->
  1 <= m2 <= 12 -> 1 <= d2 <= days_in leap m2 ->
  m1 < m2 -> year_day leap m1 d1 < year_day leap m2 d2.
Proof.
  pure_context. intros Hm1 Hd1 Hm2 Hd2 Hlt. unfold year_day.
  destruct (month_cases m1 Hm1) as [->|[->|[->|[->|[->|[->|[->|[->|[->|[->|[->| ->]]]]]]]]]]];
    destruct (month_cases m2 Hm2) as [->|[->|[->|[->|[->|[->|[->|[->|[->|[->|[->| ->]]]]]]]]]]];
    try lia; destruct leap; cbn in Hd1, Hd2 |- *; lia.
Qed.

(** Earlier dates have smaller ordinals. *)
Lemma _ymd2ord_lt (y1 m1 d1 y2 m2 d2 : Z) :
  1 <= m1 <= 12 -> 1 <= d1 <= _days_in_month y1 m1 ->
  1 <= m2 <= 12 -> 1 <= d2 <= _days_in_month y2 m2 ->
  lex_lt [y1; m1; d1] [y2; m2; d2] = true ->
  _ymd2ord y1 m1 d1 < _ymd2ord y2 m2 d2.
Proof.
  pure_context. intros Hm1 Hd1 Hm2 Hd2 Hlt.
  change (_days_in_month y1 m1) with (days_in (_is_leap y1) m1) in Hd1.
  change (_days_in_month y2 m2) with (days_in (_is_leap y2) m2) in Hd2.
  assert (E1 : _ymd2ord y1 m1 d1 = _days_before_year y1 + year_day (_is_leap y1) m1 d1 + 1)
    by (unfold _ymd2ord, _days_before_month, year_day; lia).
  assert (E2 : _ymd2ord y2 m2 d2 = _days_before_year y2 + year_day (_is_leap y2) m2 d2 + 1)
    by (unfold _ymd2ord, _days_before_month, year_day; lia).
  destruct (year_day_bounds _ m1 d1 Hm1 Hd1) as [Hb1 _].
  destruct (year_day_bounds _ m2 d2 Hm2 Hd2) as [Hb2 _].
  rewrite E1, E2. cbn [lex_lt] in Hlt.
  destruct (Z.ltb_spec y1 y2) as [Hy | Hy].
  - pose proof (_days_before_year_next y1) as Hnext.
    pose proof (_days_before_year_mono (y1 + 1) y2 ltac:(lia)) as Hmono.
    destruct (_is_leap y1); lia.
  - cbn [orb] in Hlt. destruct (Z.eqb_spec y1 y2) as [-> | ]; [|discriminate].
    cbn [andb] in Hlt.
    destruct (Z.ltb_spec m1 m2) as [Hm | Hm].
    + pose proof (year_day_month_mono _ m1 d1 m2 d2 Hm1 Hd1 Hm2 Hd2 Hm). lia.
    + cbn [orb] in Hlt. destruct (Z.eqb_spec m1 m2) as [-> | ]; [|discriminate].
      cbn [andb] in Hlt. unfold year_day.
      destruct (Z.ltb_spec d1 d2); [lia|]. rewrite andb_false_r in Hlt. discriminate.
Qed.


(** *** Running [_request] *)

Lemma _request_run (method : string) (data : value) (st : state world) :
  _request method data st =
  let rq := request_of (self st) method data in
  let '(r, w) := requests_post rq (net st) in
  (resp ← r; result ← json resp; _request_unwrap method result,
   mkstate (self st) w (sent st ++ [rq])).
Proof.
  unfold _request, request_of, post, get_self, lift, mbind, M_bind, outcome_bind; simpl.
  destruct (requests_post _ (net st)) as [[resp|e] w]; simpl; [|reflexivity].
  destruct (json resp); reflexivity.
Qed.

Lemma _request_self (method : string) (data : value) (st : state world) :
  self (_request method data st).2 = self st.
Proof.
  rewrite _request_run; simpl.
  destruct (requests_post _ (net st)); reflexivity.
Qed.

Lemma _request_sent (method : string) (data : value) (st : state world) :
  sent (_request method data st).2 = sent st ++ [request_of (self st) method data].
Proof.
  rewrite _request_run; simpl.
  destruct (requests_post _ (net st)); reflexivity.
Qed.

(** When the transport succeeds and the body decodes, [_request] returns
    what the unwrapping of the body gives. *)
Lemma _request_decoded (method : string) (data result : value) (st : state world) (w : world) :
  requests_post (request_of (self st) method data) (net st) = (Ok (mkResponse (Ok result)), w) ->
  (_request method data st).1 = _request_unwrap method result.
Proof.
  intros Hpost. rewrite _request_run; simpl. rewrite Hpost. reflexivity.
Qed.

(** *** Unwrapping of the response envelope *)

Lemma py_contains_dict (k : string) (d : gmap string value) (v : value) :
  d !! k = Some v -> py_contains k (VDict d) = Ok true.
Proof.
  intros H; simpl. rewrite bool_decide_eq_true_2; [reflexivity | eauto].
Qed.

Lemma py_contains_dict_absent (k : string) (d : gmap string value) :
  d !! k = None -> py_contains k (VDict d) = Ok false.
Proof.
  intros H; simpl. rewrite bool_decide_eq_false_2; [reflexivity|].
  rewrite H. intros [? ?]; discriminate.
Qed.

(** Both wrapping levels present: the payload under ["data"] is returned. *)
Lemma _request_unwrap_data (method : string) (r inner : gmap string value) (payload : value) :
  r !! (method ++ "Result")%string = Some (VDict inner) ->
  inner !! "data" = Some payload ->
  _request_unwrap method (VDict r) = Ok payload.
Proof.
  intros Hr Hi. unfold _request_unwrap.
  rewrite (py_contains_dict _ _ _ Hr); simpl. rewrite Hr; simpl.
  rewrite bool_decide_eq_true_2 by eauto. simpl. rewrite Hi. reflexivity.
Qed.

(** Outer level only, the inner value an object without ["data"]: the inner
    object is returned. *)
Lemma _request_unwrap_inner (method : string) (r inner : gmap string value) :
  r !! (method ++ "Result")%string = Some (VDict inner) ->
  inner !! "data" = None ->
  _request_unwrap method (VDict r) = Ok (VDict inner).
Proof.
  intros Hr Hi. unfold _request_unwrap.
  rewrite (py_contains_dict _ _ _ Hr); simpl. rewrite Hr; simpl.
  rewrite bool_decide_eq_false_2; [reflexivity|].
  rewrite Hi. intros [? ?]; discriminate.
Qed.

(** No wrapping key: the object itself is returned. *)
Lemma _request_unwrap_raw (method : string) (r : gmap string value) :
  r !! (method ++ "Result")%string = None ->
  _request_unwrap method (VDict r) = Ok (VDict r).
Proof.
  intros Hr. unfold _request_unwrap.
  rewrite (py_contains_dict_absent _ _ Hr). reflexivity.
Qed.

(** An inner value that is a number, a boolean or null is not iterable: the
    test for ["data"] raises. *)
Lemma _request_unwrap_scalar (method : string) (r : gmap string value) (inner : value) :
  r !! (method ++ "Result")%string = Some inner ->
  is_scalar inner = true ->
  _request_unwrap method (VDict r) = Raise TypeError.
Proof.
  intros Hr Hs. unfold _request_unwrap.
  rewrite (py_contains_dict _ _ _ Hr); simpl. rewrite Hr; simpl.
  destruct inner; try discriminate; reflexivity.
Qed.

(** An inner string that has ["data"] as a substring passes the test and is
    then indexed by a string. *)
Lemma _request_unwrap_text (method : string) (r : gmap string value) (s : string) :
  r !! (method ++ "Result")%string = Some (VStr s) ->
  _request_unwrap method (VDict r) =
  if is_substring "data" s then Raise TypeError else Ok (VStr s).
Proof.
  intros Hr. unfold _request_unwrap.
  rewrite (py_contains_dict _ _ _ Hr); simpl. rewrite Hr; simpl.
  destruct (is_substring "data" s); reflexivity.
Qed.

(** The same through [_request]: a decoded body whose wrapped value is a
    scalar makes the call raise. *)
Lemma _request_scalar_payload
    (method : string) (data : value) (r : gmap string value) (inner : value)
    (st : state world) (w : world) :
  requests_post (request_of (self st) method data) (net st) = (Ok (mkResponse (Ok (VDict r))), w) ->
  r !! (method ++ "Result")%string = Some inner ->
  is_scalar inner = true ->
  (_request method data st).1 = Raise TypeError.
Proof.
  intros Hpost Hr Hs. rewrite (_request_decoded _ _ _ _ _ Hpost).
  exact (_request_unwrap_scalar _ _ _ Hr Hs).
Qed.

(** *** Footprint of the operations *)

Ltac run_request :=
  match goal with
  | |- context [_request ?m ?d ?st] =>
      let Hs := fresh "Hself" in
      let Hn := fresh "Hsent" in
      pose proof (_request_self m d st) as Hs;
      pose proof (_request_sent m d st) as Hn;
      destruct (_request m d st) as [[?|?] ?]; simpl in *
  end.

(** Every implemented operation leaves the client object as it was, and
    either raises before sending anything or sends exactly one request,
    built from the client's attributes for the method it names. *)
Lemma implemented_footprint (c : implemented) (st : state world) :
  self (call_implemented c st).2 = self st /\
  (sent (call_implemented c st).2 = sent st \/
   exists data, sent (call_implemented c st).2 =
                sent st ++ [request_of (self st) (requested_method c) data]).
Proof.
  destruct c; simpl;
    unfold aircraft_type, airline_flight_info, airline_flight_schedules, airline_info,
      airline_insight, airport_info, all_airlines, all_airports, block_indent_check,
      count_airport_operations, count_all_enroute_airline_operations, get_flight_id,
      metar, metar_ex, ntaf, taf, tail_owner, zipcode_info;
    try (rewrite _request_self, _request_sent; split; [reflexivity | right; eexists; reflexivity]).
  - unfold mbind, M_bind, lift.
    destruct (to_unix_timestamp start_date); simpl; [|split; [reflexivity | left; reflexivity]].
    destruct (to_unix_timestamp end_date); simpl; [|split; [reflexivity | left; reflexivity]].
    run_request; (split; [assumption | right; eexists; eassumption]).
  - unfold mbind, M_bind, lift.
    destruct (to_unix_timestamp departure_datetime); simpl;
      [|split; [reflexivity | left; reflexivity]].
    rewrite _request_self, _request_sent. split; [reflexivity | right; eexists; reflexivity].
Qed.

Lemma issued_app (st st' : state world) (l : list request) :
  sent st' = sent st ++ l -> issued st st' = l.
Proof. intros H. unfold issued. rewrite H. apply drop_app_length. Qed.

Lemma issued_same (st st' : state world) :
  sent st' = sent st -> issued st st' = [].
Proof. intros H. apply issued_app. rewrite H, app_nil_r. reflexivity. Qed.

(** C5. Every operation that is declared only raises [NotImplementedError]
    and leaves the state, and so the log of requests, as it was: it sends
    nothing. *)
Theorem C5_declared_raise_without_request (c : declared) (st : state world) :
  call_declared c st = (Raise NotImplementedError, st) /\
  issued st (call_declared c st).2 = [].
Proof.
  assert (H : call_declared c st = (Raise NotImplementedError, st))
    by (destruct c; reflexivity).
  split; [exact H|]. rewrite H. apply issued_same. reflexivity.
Qed.

(** When the transport succeeds and the body decodes to an object that
    has an ["error"] key and no ["AirportInfoResult"] key, [airport_info]
    returns that object itself; nothing is raised. *)
Lemma airport_info_returns_error_object
    (airport : value) (r : gmap string value) (st : state world) (w : world) :
  requests_post (request_of (self st) "AirportInfo" (VDict {[ "airportCode" := airport ]}))
                (net st) = (Ok (mkResponse (Ok (VDict r))), w) ->
  is_Some (r !! "error") ->
  r !! "AirportInfoResult" = None ->
  (airport_info airport st).1 = Ok (VDict r).
Proof.
  intros Hpost _ Habsent. unfold airport_info.
  rewrite (_request_decoded _ _ _ _ _ Hpost).
  apply _request_unwrap_raw. exact Habsent.
Qed.

(** C8. An implemented operation leaves the client object unchanged, so a
    second call runs with the same credentials and headers, and every request
    the two calls send carries the credentials and headers the client had at
    the start. *)
Theorem C8_client_unchanged (c1 c2 : implemented) (st : state world) :
  self (call_implemented c1 st).2 = self st /\
  self (call_implemented c2 (call_implemented c1 st).2).2 = self st /\
  Forall (fun rq => req_auth rq = auth (self st) /\ req_headers rq = headers (self st))
         (issued st (call_implemented c2 (call_implemented c1 st).2).2).
Proof.
  destruct (implemented_footprint c1 st) as [Hs1 Hn1].
  destruct (implemented_footprint c2 (call_implemented c1 st).2) as [Hs2 Hn2].
  rewrite Hs1 in Hs2, Hn2.
  split; [exact Hs1|]. split; [exact Hs2|].
  destruct Hn1 as [Hn1 | [d1 Hn1]], Hn2 as [Hn2 | [d2 Hn2]]; rewrite Hn1 in Hn2.
  - rewrite (issued_same _ _ Hn2). constructor.
  - rewrite (issued_app _ _ _ Hn2). repeat constructor.
  - rewrite (issued_app _ _ _ Hn2). repeat constructor.
  - rewrite <- app_assoc in Hn2. rewrite (issued_app _ _ _ Hn2). repeat constructor.
Qed.

(** C10. [taf] and [ntaf] are the same computation: from any state they
    give the same result and the same final state, having sent one request
    with the body [{"airport": a}] to the [NTaf] endpoint. *)
Theorem C10_taf_ntaf_equal (airport : value) (st : state world) :
  taf airport st = ntaf airport st /\
  issued st (taf airport st).2 =
    [mkrequest "http://flightxml.flightaware.com/json/FlightXML2/NTaf"
               (VDict {[ "airport" := airport ]}) (auth (self st)) (headers (self st))] /\
  issued st (ntaf airport st).2 =
    [mkrequest "http://flightxml.flightaware.com/json/FlightXML2/NTaf"
               (VDict {[ "airport" := airport ]}) (auth (self st)) (headers (self st))].
Proof.
  split; [reflexivity|].
  split; apply issued_app; unfold taf, ntaf; rewrite _request_sent; reflexivity.
Qed.

(** Apart from [taf], every implemented operation that sends a request
    posts it to the base URL joined with its vendor method, with the
    headers and credentials of the client. *)
Lemma implemented_posts_to_vendor_method (c : implemented) (st : state world) :
  (forall a, c <> Taf a) ->
  Forall (fun rq => req_url rq = (BASE_URL ++ vendor_method c)%string /\
                    req_auth rq = auth (self st) /\
                    req_headers rq = headers (self st))
         (issued st (call_implemented c st).2) /\
  (length (issued st (call_implemented c st).2) <= 1)%nat.
Proof.
  intros Hc. destruct (implemented_footprint c st) as [_ [Hn | [d Hn]]].
  - rewrite (issued_same _ _ Hn). split; [constructor | simpl; lia].
  - rewrite (issued_app _ _ _ Hn). split; [|simpl; lia].
    repeat constructor. destruct c; try reflexivity. destruct (Hc airport); reflexivity.
Qed.


(** *** [airline_flight_schedules] *)

Lemma schedule_item_ok (item item' : value) :
  schedule_item item = Ok item' -> has_derived_times item'.
Proof.
  unfold schedule_item. destruct item as [| | | | | |d| |]; try discriminate. simpl.
  destruct (d !! "departuretime") as [raw_dep|] eqn:Hdep; [|discriminate]. simpl.
  destruct (from_unix_timestamp raw_dep) as [dep|] eqn:Htdep; [|discriminate]. simpl.
  rewrite lookup_insert_ne by discriminate.
  destruct (d !! "arrivaltime") as [raw_arr|] eqn:Harr; [|discriminate]. simpl.
  destruct (from_unix_timestamp raw_arr) as [arr|] eqn:Htarr; [|discriminate]. simpl.
  intros [= <-]. exists (<["arrival_time" := VDatetime arr]> (<["departure_time" := VDatetime dep]> d)),
    raw_dep, raw_arr, dep, arr.
  repeat split; try assumption.
  - rewrite !lookup_insert_ne by discriminate. exact Hdep.
  - rewrite !lookup_insert_ne by discriminate. exact Harr.
  - rewrite lookup_insert_ne by discriminate. apply lookup_insert_eq.
  - apply lookup_insert_eq.
Qed.

Lemma for_each_ok (f : value -> outcome value) (items items' : list value) :
  for_each f items = Ok items' -> Forall2 (fun x y => f x = Ok y) items items'.
Proof.
  revert items'. induction items as [|x items IH]; intros items'; simpl.
  - intros [= <-]. constructor.
  - destruct (f x) as [y|] eqn:Hx; [|discriminate]. simpl.
    destruct (for_each f items) as [ys|]; [|discriminate]. simpl.
    intros [= <-]. constructor; [exact Hx | apply IH; reflexivity].
Qed.

Lemma for_each_strings (items items' : list value) :
  Forall (fun x => exists s, x = VStr s) items ->
  for_each schedule_item items = Ok items' -> items = [].
Proof.
  intros Hstr Hrun. destruct Hstr as [|x items [s ->] _]; [reflexivity|].
  simpl in Hrun. discriminate.
Qed.

Lemma chars_strings (s : string) : Forall (fun x => exists s, x = VStr s) (chars s).
Proof. induction s; simpl; constructor; eauto. Qed.

Lemma schedule_loop_ok (results results' : value) :
  schedule_loop results = Ok results' ->
  exists items, py_iter results' = Ok items /\ Forall has_derived_times items.
Proof.
  unfold schedule_loop.
  destruct (py_iter results) as [items|] eqn:Hiter; [|discriminate]. simpl.
  destruct (for_each schedule_item items) as [items'|] eqn:Hrun; [|discriminate]. simpl.
  destruct results as [| | | |s|l|d| |]; try discriminate; intros [= <-]; simpl in Hiter.
  - injection Hiter as <-.
    exists []. split; [|constructor]. simpl.
    rewrite (for_each_strings _ _ (chars_strings s) Hrun). reflexivity.
  - exists items'. split; [reflexivity|].
    apply for_each_ok in Hrun. clear Hiter.
    induction Hrun as [|x y xs ys Hxy _ IH]; constructor;
      [exact (schedule_item_ok _ _ Hxy) | exact IH].
  - injection Hiter as <-.
    assert (Hstr : Forall (fun x => exists s, x = VStr s) (VStr <$> (map_to_list d).*1)).
    { apply Forall_fmap, Forall_true. intros k. simpl. eauto. }
    exists []. split; [|constructor]. simpl.
    rewrite (for_each_strings _ _ Hstr Hrun). reflexivity.
Qed.

Lemma schedule_item_returns (d : gmap string value) (raw_dep raw_arr : value) (dep arr : datetime) :
  d !! "departuretime" = Some raw_dep ->
  d !! "arrivaltime" = Some raw_arr ->
  from_unix_timestamp raw_dep = Ok dep ->
  from_unix_timestamp raw_arr = Ok arr ->
  schedule_item (VDict d) =
  Ok (VDict (<["arrival_time" := VDatetime arr]> (<["departure_time" := VDatetime dep]> d))).
Proof.
  intros Hdep Harr Htdep Htarr. unfold schedule_item. simpl.
  rewrite Hdep. simpl. rewrite Htdep. simpl.
  rewrite lookup_insert_ne by discriminate. rewrite Harr. simpl. rewrite Htarr. reflexivity.
Qed.

(** When the body unwraps to a list of records that each hold raw fields
    [fromtimestamp] accepts, the loop returns the list of the records
    extended with the two derived fields. *)
Lemma schedule_loop_returns (records : list (gmap string value)) :
  Forall (fun d => exists raw_dep raw_arr,
            d !! "departuretime" = Some raw_dep /\ d !! "arrivaltime" = Some raw_arr /\
            returns (from_unix_timestamp raw_dep) /\ returns (from_unix_timestamp raw_arr))
         records ->
  exists items, schedule_loop (VList (VDict <$> records)) = Ok (VList items) /\
                length items = length records.
Proof.
  intros H.
  assert (Hrun : exists items, for_each schedule_item (VDict <$> records) = Ok items /\
                               length items = length records).
  { induction H as [|d ds (raw_dep & raw_arr & Hdep & Harr & [dep Htdep] & [arr Htarr]) _ IH].
    - exists []. split; reflexivity.
    - destruct IH as (items & Hitems & Hlen).
      rewrite fmap_cons. cbn [for_each].
      rewrite (schedule_item_returns _ _ _ _ _ Hdep Harr Htdep Htarr), Hitems.
      eexists. split; [reflexivity|]. simpl. rewrite Hlen. reflexivity. }
  destruct Hrun as (items & Hrun & Hlen). exists items. split; [|exact Hlen].
  unfold schedule_loop. cbn [py_iter mbind outcome_bind]. rewrite Hrun. reflexivity.
Qed.

(** When the dates convert, the transport succeeds and the body unwraps to
    a list of records with raw fields [fromtimestamp] accepts,
    [airline_flight_schedules] returns a list of as many records. *)
Lemma airline_flight_schedules_returns
    (start_date end_date origin destination airline flight_number how_many offset : value)
    (st : state world) (startDate endDate body : value) (w : world)
    (records : list (gmap string value)) :
  to_unix_timestamp start_date = Ok startDate ->
  to_unix_timestamp end_date = Ok endDate ->
  (forall rq, requests_post rq (net st) = (Ok (mkResponse (Ok body)), w)) ->
  _request_unwrap "AirlineFlightSchedules" body = Ok (VList (VDict <$> records)) ->
  Forall (fun d => exists raw_dep raw_arr,
            d !! "departuretime" = Some raw_dep /\ d !! "arrivaltime" = Some raw_arr /\
            returns (from_unix_timestamp raw_dep) /\ returns (from_unix_timestamp raw_arr))
         records ->
  exists items,
    (airline_flight_schedules start_date end_date origin destination airline flight_number
       how_many offset st).1 = Ok (VList items) /\
    length items = length records.
Proof.
  intros Hs He Hpost Hbody Hrecords.
  destruct (schedule_loop_returns records Hrecords) as (items & Hloop & Hlen).
  exists items. split; [|exact Hlen].
  unfold airline_flight_schedules, mbind, M_bind, lift.
  rewrite Hs; simpl. rewrite He; simpl.
  match goal with
  | |- context [_request ?m ?d st] =>
      pose proof (_request_decoded m d body st w (Hpost _)) as Hreq;
      destruct (_request m d st) as [r st']
  end.
  simpl in Hreq. rewrite Hreq, Hbody. simpl. exact Hloop.
Qed.


(** The loop on a list of records with raw fields [fromtimestamp] accepts:
    each record comes out with the two derived fields added. *)
Lemma for_each_schedule_items (records : list (gmap string value)) :
  Forall (fun d => exists raw_dep raw_arr,
            d !! "departuretime" = Some raw_dep /\ d !! "arrivaltime" = Some raw_arr /\
            returns (from_unix_timestamp raw_dep) /\ returns (from_unix_timestamp raw_arr))
         records ->
  exists items,
    for_each schedule_item (VDict <$> records) = Ok items /\
    Forall2 (fun d item =>
               exists raw_dep raw_arr dep arr,
                 d !! "departuretime" = Some raw_dep /\ d !! "arrivaltime" = Some raw_arr /\
                 from_unix_timestamp raw_dep = Ok dep /\ from_unix_timestamp raw_arr = Ok arr /\
                 item = VDict (<["arrival_time" := VDatetime arr]>
                                 (<["departure_time" := VDatetime dep]> d)))
            records items.
Proof.
  intros H.
  induction H as [|d ds (raw_dep & raw_arr & Hdep & Harr & [dep Htdep] & [arr Htarr]) _ IH].
  - exists []. split; [reflexivity | constructor].
  - destruct IH as (items & Hitems & Hall).
    rewrite fmap_cons. cbn [for_each].
    rewrite (schedule_item_returns _ _ _ _ _ Hdep Harr Htdep Htarr), Hitems.
    eexists. split; [reflexivity|]. constructor; [|exact Hall].
    exists raw_dep, raw_arr, dep, arr. auto.
Qed.

(** C3. [airline_flight_schedules] gives every record its derived fields.
    When the dates convert, the transport succeeds and the body unwraps to
    a list of records whose raw ["departuretime"] and ["arrivaltime"]
    [fromtimestamp] accepts, the call returns the list of these records, in
    order, each with ["departure_time"] and ["arrival_time"] set to the
    datetimes decoded from its raw fields.  And whenever the call returns,
    what it returns is a sequence whose every record holds the two derived
    fields, decoded from its raw ones. *)
Theorem C3_returned_records_have_derived_times
    (start_date end_date origin destination airline flight_number how_many offset : value)
    (st : state world) :
  (forall (startDate endDate body : value) (w : world) (records : list (gmap string value)),
     to_unix_timestamp start_date = Ok startDate ->
     to_unix_timestamp end_date = Ok endDate ->
     (forall rq, requests_post rq (net st) = (Ok (mkResponse (Ok body)), w)) ->
     _request_unwrap "AirlineFlightSchedules" body = Ok (VList (VDict <$> records)) ->
     Forall (fun d => exists raw_dep raw_arr,
               d !! "departuretime" = Some raw_dep /\ d !! "arrivaltime" = Some raw_arr /\
               returns (from_unix_timestamp raw_dep) /\ returns (from_unix_timestamp raw_arr))
            records ->
     exists items,
       (airline_flight_schedules start_date end_date origin destination airline flight_number
          how_many offset st).1 = Ok (VList items) /\
       Forall2 (fun d item =>
                  exists raw_dep raw_arr dep arr,
                    d !! "departuretime" = Some raw_dep /\ d !! "arrivaltime" = Some raw_arr /\
                    from_unix_timestamp raw_dep = Ok dep /\
                    from_unix_timestamp raw_arr = Ok arr /\
                    item = VDict (<["arrival_time" := VDatetime arr]>
                                    (<["departure_time" := VDatetime dep]> d)))
               records items) /\
  (forall results,
     (airline_flight_schedules start_date end_date origin destination airline flight_number
        how_many offset st).1 = Ok results ->
     exists items, py_iter results = Ok items /\ Forall has_derived_times items).
Proof.
  split.
  - intros startDate endDate body w records Hs He Hpost Hbody Hrecords.
    destruct (for_each_schedule_items records Hrecords) as (items & Hrun & Hall).
    exists items. split; [|exact Hall].
    unfold airline_flight_schedules, mbind, M_bind, lift.
    rewrite Hs; simpl. rewrite He; simpl.
    match goal with
    | |- context [_request ?m ?d st] =>
        pose proof (_request_decoded m d body st w (Hpost _)) as Hreq;
        destruct (_request m d st) as [r st']
    end.
    simpl in Hreq. rewrite Hreq, Hbody. simpl.
    unfold schedule_loop. cbn [py_iter mbind outcome_bind]. rewrite Hrun. reflexivity.
  - intros results.
    unfold airline_flight_schedules, mbind, M_bind, lift.
    destruct (to_unix_timestamp start_date); simpl; [|discriminate].
    destruct (to_unix_timestamp end_date); simpl; [|discriminate].
    destruct (_request _ _ st) as [[raw|] st']; simpl; [|discriminate].
    apply schedule_loop_ok.
Qed.

(** C4. [airline_flight_schedules] forwards [how_many] as it is given: when
    the two dates convert, exactly one request is issued, to the
    [AirlineFlightSchedules] endpoint, and its ["howMany"] parameter is the
    argument, whatever its value. *)
Theorem C4_how_many_forwarded
    (start_date end_date origin destination airline flight_number how_many offset : value)
    (st : state world) (startDate endDate : value) :
  to_unix_timestamp start_date = Ok startDate ->
  to_unix_timestamp end_date = Ok endDate ->
  exists data : gmap string value,
    issued st (airline_flight_schedules start_date end_date origin destination airline
                 flight_number how_many offset st).2 =
      [request_of (self st) "AirlineFlightSchedules" (VDict data)] /\
    data !! "howMany" = Some how_many.
Proof.
  intros Hs He. unfold airline_flight_schedules, mbind, M_bind, lift.
  rewrite Hs; simpl. rewrite He; simpl.
  eexists. split.
  - apply issued_app. run_request; exact Hsent.
  - rewrite !lookup_insert_ne by discriminate. apply lookup_insert_eq.
Qed.


(** C6. [taf] sends its one request to the [NTaf] endpoint, which is not
    the base URL joined with [Taf], the vendor method [taf] stands for. *)
Theorem C6_taf_posts_to_ntaf (airport : value) (st : state world) :
  issued st (call_implemented (Taf airport) st).2 =
    [mkrequest "http://flightxml.flightaware.com/json/FlightXML2/NTaf"
               (VDict {[ "airport" := airport ]}) (auth (self st)) (headers (self st))] /\
  "http://flightxml.flightaware.com/json/FlightXML2/NTaf" <>
    path_join BASE_URL (vendor_method (Taf airport)).
Proof.
  split; [|discriminate].
  apply issued_app. cbn [call_implemented]. unfold taf. rewrite _request_sent. reflexivity.
Qed.


(** *** Extensions: the timestamp helpers *)

(** X1. Whatever [from_unix_timestamp] returns for an integer is a datetime
    the constructor accepts, naive and without microseconds, whose reading is
    the instant shifted by the local UTC offset at that instant. *)
Theorem X1_from_unix_timestamp_decodes (n : Z) (dt : datetime) :
  from_unix_timestamp (VInt n) = Ok dt ->
  valid_datetime dt = true /\ utcoffset dt = None /\ microsecond dt = 0 /\
  seconds_since_epoch dt = n + localtime_utcoffset n.
Proof. exact (fromtimestamp_int_decodes n dt). Qed.

(** X2. With a local offset of at most a day at instant [n],
    [from_unix_timestamp] returns for the integer [n] exactly when three
    readings of the local clock lie between 0001-01-01 00:00:00 and
    9999-12-31 23:59:59: the one at [n], the one a day before [n], and, when
    the offset went down within that day, the one at the transition.
    Outside it raises. *)
Theorem X2_from_unix_timestamp_domain (n : Z) :
  Z.abs (localtime_utcoffset n) <= 86400 ->
  (returns (from_unix_timestamp (VInt n)) <->
   in_calendar (n + localtime_utcoffset n) /\ fold_probes_in_calendar n).
Proof.
  intros Hoff. cbn [from_unix_timestamp fromtimestamp].
  assert (Hfit : - 2 ^ 63 <= n < 2 ^ 63 \/ ~ (- 2 ^ 63 <= n < 2 ^ 63)) by lia.
  destruct Hfit as [Hfit | Hfit]; [exact (fromtimestamp_int_returns n Hfit)|].
  split.
  - intros [dt Hdt]. exfalso. unfold fromtimestamp_int in Hdt.
    destruct (Z.leb_spec (- 2 ^ 63) n); destruct (Z.ltb_spec n (2 ^ 63));
      cbn [andb] in Hdt; try discriminate. lia.
  - intros [Hin _]. exfalso. unfold in_calendar in Hin.
    change (2 ^ 63) with 9223372036854775808 in Hfit. lia.
Qed.

(** X3. Decoding epoch seconds and encoding the result again gives the
    seconds shifted by the local UTC offset: the identity only on UTC. *)
Theorem X3_decode_then_encode (n : Z) (dt : datetime) :
  from_unix_timestamp (VInt n) = Ok dt ->
  to_unix_timestamp (VDatetime dt) = Ok (VInt (n + localtime_utcoffset n)).
Proof.
  intros Hdec.
  destruct (fromtimestamp_int_decodes n dt Hdec) as (Hv & Hn & Hus & Hsec).
  destruct (to_unix_timestamp_naive dt Hv Hn) as (k & -> & _ & Hexact).
  rewrite (Hexact Hus), Hsec. reflexivity.
Qed.

(** X4. For a naive datetime without microseconds, encoding and decoding
    gives the datetime back exactly when the local UTC offset is zero at
    that instant and the readings probed for [fold] lie in the calendar
    (on UTC they do from 0001-01-02 on). *)
Theorem X4_roundtrip_iff_zero_offset (d : datetime) :
  valid_datetime d = true -> utcoffset d = None -> microsecond d = 0 ->
  ((to_unix_timestamp (VDatetime d) ≫= from_unix_timestamp) = Ok d <->
   localtime_utcoffset (seconds_since_epoch d) = 0 /\
   fold_probes_in_calendar (seconds_since_epoch d)).
Proof.
  intros Hv Hn Hus. split; [|intros [Hzone Hprobes]; apply roundtrip_zero_offset; assumption].
  destruct (to_unix_timestamp_naive d Hv Hn) as (k & -> & _ & Hexact).
  rewrite (Hexact Hus). cbn [mbind outcome_bind from_unix_timestamp fromtimestamp].
  intros Hdec.
  pose proof (seconds_since_epoch_in_calendar d Hv) as Hin.
  assert (Hfit : - 2 ^ 63 <= seconds_since_epoch d < 2 ^ 63).
  { unfold in_calendar in Hin. change (2 ^ 63) with 9223372036854775808. lia. }
  destruct (proj1 (fromtimestamp_int_returns _ Hfit)) as [_ Hprobes]; [eexists; exact Hdec|].
  apply fromtimestamp_int_decodes in Hdec.
  destruct Hdec as (_ & _ & _ & Hsec). split; [lia | exact Hprobes].
Qed.

(** X5. [to_unix_timestamp] tells naive datetimes without microseconds
    apart: two of them with the same timestamp are the same datetime. *)
Theorem X5_to_unix_timestamp_injective (d1 d2 : datetime) :
  valid_datetime d1 = true -> utcoffset d1 = None -> microsecond d1 = 0 ->
  valid_datetime d2 = true -> utcoffset d2 = None -> microsecond d2 = 0 ->
  to_unix_timestamp (VDatetime d1) = to_unix_timestamp (VDatetime d2) ->
  d1 = d2.
Proof.
  pure_context. intros Hv1 Hn1 Hus1 Hv2 Hn2 Hus2 Heq.
  destruct (to_unix_timestamp_naive d1 Hv1 Hn1) as (k1 & E1 & _ & Hex1).
  destruct (to_unix_timestamp_naive d2 Hv2 Hn2) as (k2 & E2 & _ & Hex2).
  rewrite E1, E2 in Heq. injection Heq as Hk.
  rewrite (Hex1 Hus1), (Hex2 Hus2) in Hk.
  destruct (seconds_since_epoch_inj d1 d2 Hv1 Hv2 Hk) as (? & ? & ? & ? & ? & ?).
  destruct d1, d2; simpl in *; subst; reflexivity.
Qed.

(** X6. On every naive datetime [to_unix_timestamp] returns an integer
    between the timestamp of 0001-01-01 00:00:00 and that of
    10000-01-01 00:00:00. *)
Theorem X6_to_unix_timestamp_range (d : datetime) :
  valid_datetime d = true -> utcoffset d = None ->
  exists n, to_unix_timestamp (VDatetime d) = Ok (VInt n) /\
            -62135596800 <= n <= 253402300800.
Proof.
  pure_context. intros Hv Hn.
  destruct (to_unix_timestamp_naive d Hv Hn) as (n & E & Hcases & Hexact).
  exists n. split; [exact E|].
  pose proof (toordinal_bounds d Hv) as Hord. unfold _MAXORDINAL in Hord.
  split_valid Hv.
  assert (HS : -62135596800 <= seconds_since_epoch d <= 253402300799).
  { unfold seconds_since_epoch. change (toordinal EPOCH) with 719163. lia. }
  unfold microseconds_since_epoch in Hcases.
  set (S := seconds_since_epoch d) in *. set (T := S * 1000000 + microsecond d) in *.
  assert (HT : S * 1000000 <= T < S * 1000000 + 1000000) by (subst T; lia).
  destruct (Z.lt_trichotomy T 0) as [Hneg | [Hz | Hpos]].
  - assert (Hq : Z.quot T 1000000 = - (- T / 1000000)).
    { rewrite <- (Z.opp_involutive T) at 1. rewrite Z.quot_opp_l by lia.
      rewrite Z.quot_div_nonneg by lia. reflexivity. }
    rewrite Z.sgn_neg in Hcases by exact Hneg. rewrite Hq in Hcases.
    assert (Hdiv : 0 <= - T / 1000000 <= 62135596800) by (Z.div_mod_to_equations; lia).
    destruct Hcases as [-> | ->]; [lia|].
    assert (- T / 1000000 < 62135596800 \/ - T / 1000000 = 62135596800) as [?|Hmax] by lia;
      [lia|].
    exfalso.
    assert (HTmin : T = -62135596800000000) by (Z.div_mod_to_equations; lia).
    assert (Hus : microsecond d = 0) by (subst T; lia).
    specialize (Hexact Hus). lia.
  - assert (Hn0 : n = 0).
    { rewrite Hz in Hcases. rewrite Z.quot_0_l in Hcases by lia.
      change (Z.sgn 0) with 0 in Hcases. lia. }
    lia.
  - rewrite Z.sgn_pos in Hcases by exact Hpos.
    rewrite Z.quot_div_nonneg in Hcases by lia.
    assert (0 <= T / 1000000 <= 253402300799) by (Z.div_mod_to_equations; lia).
    lia.
Qed.

(** X7. [to_unix_timestamp] keeps the order of naive datetimes without
    microseconds: an earlier datetime gets a smaller timestamp. *)
Theorem X7_to_unix_timestamp_monotone (d1 d2 : datetime) :
  valid_datetime d1 = true -> utcoffset d1 = None -> microsecond d1 = 0 ->
  valid_datetime d2 = true -> utcoffset d2 = None -> microsecond d2 = 0 ->
  datetime_lt d1 d2 = true ->
  exists n1 n2,
    to_unix_timestamp (VDatetime d1) = Ok (VInt n1) /\
    to_unix_timestamp (VDatetime d2) = Ok (VInt n2) /\
    n1 < n2.
Proof.
  pure_context. intros Hv1 Hn1 Hus1 Hv2 Hn2 Hus2 Hlt.
  destruct (to_unix_timestamp_naive d1 Hv1 Hn1) as (k1 & E1 & _ & Hex1).
  destruct (to_unix_timestamp_naive d2 Hv2 Hn2) as (k2 & E2 & _ & Hex2).
  exists k1, k2. split; [exact E1|]. split; [exact E2|].
  rewrite (Hex1 Hus1), (Hex2 Hus2).
  unfold seconds_since_epoch, toordinal.
  split_valid Hv1. split_valid Hv2.
  unfold datetime_lt in Hlt. rewrite Hus1, Hus2 in Hlt.
  assert (Hcases : lex_lt [year d1; month d1; day d1] [year d2; month d2; day d2] = true \/
                   (year d1 = year d2 /\ month d1 = month d2 /\ day d1 = day d2 /\
                    hour d1 * 3600 + minute d1 * 60 + second d1 <
                    hour d2 * 3600 + minute d2 * 60 + second d2)).
  { cbn [lex_lt] in Hlt |- *.
    destruct (Z.ltb_spec (year d1) (year d2)); [left; reflexivity|].
    destruct (Z.eqb_spec (year d1) (year d2)); [|discriminate].
    destruct (Z.ltb_spec (month d1) (month d2)); [left; reflexivity|].
    destruct (Z.eqb_spec (month d1) (month d2)); [|discriminate].
    destruct (Z.ltb_spec (day d1) (day d2)); [left; reflexivity|].
    destruct (Z.eqb_spec (day d1) (day d2)); [|discriminate].
    right. cbn [orb andb] in Hlt. lia. }
  destruct Hcases as [Hdate | (Hy & Hm & Hd & Hsod)].
  - pose proof (_ymd2ord_lt (year d1) (month d1) (day d1) (year d2) (month d2) (day d2)
                  ltac:(lia) ltac:(lia) ltac:(lia) ltac:(lia) Hdate).
    lia.
  - rewrite Hy, Hm, Hd. lia.
Qed.


(** *** Extensions: [Client._request] *)

(** X8. When the transport succeeds and the body decodes to an object,
    [_request] returns the object itself if it has no wrapping key, and for
    a wrapped object the value under ["data"] if there is one, the wrapped
    object otherwise. *)
Theorem X8_request_unwraps_objects
    (method : string) (data : value) (r : gmap string value) (st : state world) (w : world) :
  requests_post (request_of (self st) method data) (net st) = (Ok (mkResponse (Ok (VDict r))), w) ->
  match r !! (method ++ "Result")%string with
  | None => (_request method data st).1 = Ok (VDict r)
  | Some (VDict inner) =>
      (_request method data st).1 = Ok (default (VDict inner) (inner !! "data"))
  | Some _ => True
  end.
Proof.
  intros Hpost. rewrite (_request_decoded _ _ _ _ _ Hpost).
  destruct (r !! (method ++ "Result")%string) as [inner|] eqn:Hr.
  - destruct inner as [| | | | | |inner| |]; try exact I.
    destruct (inner !! "data") as [payload|] eqn:Hi; simpl.
    + exact (_request_unwrap_data _ _ _ _ Hr Hi).
    + exact (_request_unwrap_inner _ _ _ Hr Hi).
  - exact (_request_unwrap_raw _ _ Hr).
Qed.

(** X9. A wrapped string is returned as it is unless ["data"] occurs in it
    as a substring, and a wrapped list unless the string ["data"] is one of
    its elements; in those two cases [_request] raises [TypeError]. *)
Theorem X9_request_wrapped_text_and_lists
    (method : string) (data : value) (r : gmap string value) (st : state world) (w : world) :
  requests_post (request_of (self st) method data) (net st) = (Ok (mkResponse (Ok (VDict r))), w) ->
  (forall s, r !! (method ++ "Result")%string = Some (VStr s) ->
     (_request method data st).1 =
     if is_substring "data" s then Raise TypeError else Ok (VStr s)) /\
  (forall l, r !! (method ++ "Result")%string = Some (VList l) ->
     (_request method data st).1 =
     if existsb (str_eq "data") l then Raise TypeError else Ok (VList l)).
Proof.
  intros Hpost. rewrite (_request_decoded _ _ _ _ _ Hpost). split.
  - intros s Hr. exact (_request_unwrap_text _ _ _ Hr).
  - intros l Hr. unfold _request_unwrap.
    rewrite (py_contains_dict _ _ _ Hr); simpl. rewrite Hr; simpl.
    destruct (existsb (str_eq "data") l); reflexivity.
Qed.

(** X10. A body that is a number, a boolean or null, and an object whose
    wrapped value is one, make [_request] raise [TypeError] for every
    method. *)
Theorem X10_request_scalars_raise
    (method : string) (data body : value) (st : state world) (w : world) :
  requests_post (request_of (self st) method data) (net st) = (Ok (mkResponse (Ok body)), w) ->
  is_scalar body = true \/
  (exists r inner, body = VDict r /\ r !! (method ++ "Result")%string = Some inner /\
                   is_scalar inner = true) ->
  (_request method data st).1 = Raise TypeError.
Proof.
  intros Hpost [Hs | (r & inner & -> & Hr & Hs)].
  - rewrite (_request_decoded _ _ _ _ _ Hpost).
    destruct body; try discriminate; reflexivity.
  - exact (_request_scalar_payload _ _ _ _ _ _ Hpost Hr Hs).
Qed.

(** *** Extensions: the operations *)

Lemma _request_failure (method : string) (data : value) (st : state world) (e : exn) :
  (forall rq, ((requests_post rq (net st)).1 ≫= json) = Raise e) ->
  (_request method data st).1 = Raise e.
Proof.
  intros Hfail. rewrite _request_run. cbv zeta.
  specialize (Hfail (request_of (self st) method data)).
  destruct (requests_post _ (net st)) as [[resp|e'] w']; simpl in *.
  - destruct (json resp); [discriminate|]. simpl. exact Hfail.
  - exact Hfail.
Qed.

(** X11. A transport fault and a body that does not decode come out of
    every implemented operation as they are: the operation returns no value,
    and raises that fault unless a date argument was rejected before
    anything was sent. *)
Theorem X11_faults_propagate (c : implemented) (st : state world) (e : exn) :
  (forall rq, ((requests_post rq (net st)).1 ≫= json) = Raise e) ->
  (call_implemented c st).1 = Raise e \/
  (issued st (call_implemented c st).2 = [] /\ exists e', (call_implemented c st).1 = Raise e').
Proof.
  intros Hfail.
  destruct c; simpl;
    unfold aircraft_type, airline_flight_info, airline_flight_schedules, airline_info,
      airline_insight, airport_info, all_airlines, all_airports, block_indent_check,
      count_airport_operations, count_all_enroute_airline_operations, get_flight_id,
      metar, metar_ex, ntaf, taf, tail_owner, zipcode_info;
    try (left; apply _request_failure; exact Hfail).
  - unfold mbind, M_bind, lift.
    destruct (to_unix_timestamp start_date); simpl;
      [|right; split; [apply issued_same; reflexivity | eauto]].
    destruct (to_unix_timestamp end_date); simpl;
      [|right; split; [apply issued_same; reflexivity | eauto]].
    left.
    match goal with
    | |- context [_request ?m ?d st] =>
        pose proof (_request_failure m d st e Hfail) as Hreq;
        destruct (_request m d st) as [[?|?] ?]; simpl in *
    end; [discriminate | exact Hreq].
  - unfold mbind, M_bind, lift.
    destruct (to_unix_timestamp departure_datetime); simpl;
      [|right; split; [apply issued_same; reflexivity | eauto]].
    left. apply _request_failure. exact Hfail.
Qed.

(** X12. On a client built by the constructor, the requests of every
    implemented operation other than [taf] go to the base URL followed by
    the vendor method of the operation, with the credentials given to the
    constructor and the form-encoding header as the only header. *)
Theorem X12_requests_of_constructed_client
    (c : implemented) (st : state world) (username api_key : string) :
  (forall a, c <> Taf a) ->
  self st = Client__init__ username api_key ->
  Forall (fun rq =>
            req_url rq = (BASE_URL ++ vendor_method c)%string /\
            req_auth rq = mkHTTPBasicAuth username api_key /\
            req_headers rq = {[ "Content-Type" := "application/x-www-form-urlencoded" ]})
         (issued st (call_implemented c st).2).
Proof.
  intros Hc Hself.
  destruct (implemented_posts_to_vendor_method c st Hc) as [Hall _].
  rewrite Hself in Hall. exact Hall.
Qed.

(** X13. An implemented operation sends exactly one request, whatever the
    service answers, provided its date arguments convert; it never sends a
    second one. *)
Theorem X13_exactly_one_request (c : implemented) (st : state world) :
  match c with
  | Airline_flight_schedules start_date end_date _ _ _ _ _ _ =>
      returns (to_unix_timestamp start_date) /\ returns (to_unix_timestamp end_date)
  | Get_flight_id _ departure_datetime => returns (to_unix_timestamp departure_datetime)
  | _ => True
  end ->
  length (issued st (call_implemented c st).2) = 1%nat.
Proof.
  intros Hdates.
  assert (Hone : exists rq, sent (call_implemented c st).2 = sent st ++ [rq]).
  { destruct c; simpl;
      unfold aircraft_type, airline_flight_info, airline_flight_schedules, airline_info,
        airline_insight, airport_info, all_airlines, all_airports, block_indent_check,
        count_airport_operations, count_all_enroute_airline_operations, get_flight_id,
        metar, metar_ex, ntaf, taf, tail_owner, zipcode_info;
      try (rewrite _request_sent; eexists; reflexivity).
    - destruct Hdates as [[s ->] [e ->]]. unfold mbind, M_bind, lift. simpl.
      run_request; eexists; eassumption.
    - destruct Hdates as [s ->]. unfold mbind, M_bind, lift. simpl.
      rewrite _request_sent. eexists; reflexivity. }
  destruct Hone as [rq Hrq]. rewrite (issued_app _ _ _ Hrq). reflexivity.
Qed.

(** X14. A date argument that [to_unix_timestamp] rejects makes
    [airline_flight_schedules] and [get_flight_id] raise that exception
    with the state as it was: nothing is sent. *)
Theorem X14_rejected_dates_send_nothing
    (start_date end_date origin destination airline flight_number how_many offset : value)
    (ident departure_datetime : value) (st : state world) (e : exn) :
  (to_unix_timestamp start_date = Raise e ->
   airline_flight_schedules start_date end_date origin destination airline flight_number
     how_many offset st = (Raise e, st)) /\
  (returns (to_unix_timestamp start_date) -> to_unix_timestamp end_date = Raise e ->
   airline_flight_schedules start_date end_date origin destination airline flight_number
     how_many offset st = (Raise e, st)) /\
  (to_unix_timestamp departure_datetime = Raise e ->
   get_flight_id ident departure_datetime st = (Raise e, st)).
Proof.
  unfold airline_flight_schedules, get_flight_id, mbind, M_bind, lift.
  split; [|split].
  - intros ->. reflexivity.
  - intros [s ->] ->. reflexivity.
  - intros ->. reflexivity.
Qed.


(** *** Extensions: the loop of [airline_flight_schedules] *)

(** With a service that answers every request with the same decoded body,
    [airline_flight_schedules] is the conversion of the dates, the
    unwrapping of the body and the loop, in this order. *)
Lemma airline_flight_schedules_run
    (start_date end_date origin destination airline flight_number how_many offset : value)
    (st : state world) (body : value) (w : world) :
  (forall rq, requests_post rq (net st) = (Ok (mkResponse (Ok body)), w)) ->
  (airline_flight_schedules start_date end_date origin destination airline flight_number
     how_many offset st).1 =
  (_ ← to_unix_timestamp start_date;
   _ ← to_unix_timestamp end_date;
   results ← _request_unwrap "AirlineFlightSchedules" body;
   schedule_loop results).
Proof.
  intros Hpost. unfold airline_flight_schedules, mbind, M_bind, lift, outcome_bind.
  destruct (to_unix_timestamp start_date); simpl; [|reflexivity].
  destruct (to_unix_timestamp end_date); simpl; [|reflexivity].
  match goal with
  | |- context [_request ?m ?d st] =>
      pose proof (_request_decoded m d body st w (Hpost _)) as Hreq;
      destruct (_request m d st) as [r st']
  end.
  simpl in Hreq. rewrite Hreq.
  destruct (_request_unwrap "AirlineFlightSchedules" body); reflexivity.
Qed.

Lemma schedule_item_frame (item item' : value) :
  schedule_item item = Ok item' ->
  exists d d' : gmap string value,
    item = VDict d /\ item' = VDict d' /\
    forall k, k <> "departure_time" -> k <> "arrival_time" -> d' !! k = d !! k.
Proof.
  unfold schedule_item. destruct item as [| | | | | |d| |]; try discriminate. simpl.
  destruct (d !! "departuretime") as [raw_dep|]; [|discriminate]. simpl.
  destruct (from_unix_timestamp raw_dep) as [dep|]; [|discriminate]. simpl.
  rewrite lookup_insert_ne by discriminate.
  destruct (d !! "arrivaltime") as [raw_arr|]; [|discriminate]. simpl.
  destruct (from_unix_timestamp raw_arr) as [arr|]; [|discriminate]. simpl.
  intros [= <-]. eexists _, _. split; [reflexivity|]. split; [reflexivity|].
  intros k Hk1 Hk2. rewrite !lookup_insert_ne by congruence. reflexivity.
Qed.

(** X15. When the body unwraps to an object that is not empty, such as the
    error object of the service, [airline_flight_schedules] does not return
    it: the loop draws the keys, which are strings, and indexing the first
    one raises [TypeError].  An empty object is returned as it is. *)
Theorem X15_schedules_on_object_payload
    (start_date end_date origin destination airline flight_number how_many offset : value)
    (st : state world) (body : value) (w : world) (r : gmap string value) :
  returns (to_unix_timestamp start_date) ->
  returns (to_unix_timestamp end_date) ->
  (forall rq, requests_post rq (net st) = (Ok (mkResponse (Ok body)), w)) ->
  _request_unwrap "AirlineFlightSchedules" body = Ok (VDict r) ->
  (r <> ∅ ->
   (airline_flight_schedules start_date end_date origin destination airline flight_number
      how_many offset st).1 = Raise TypeError) /\
  (r = ∅ ->
   (airline_flight_schedules start_date end_date origin destination airline flight_number
      how_many offset st).1 = Ok (VDict r)).
Proof.
  intros [s Hs] [e He] Hpost Hbody.
  rewrite (airline_flight_schedules_run _ _ _ _ _ _ _ _ _ _ _ Hpost), Hs, He, Hbody.
  cbn [mbind outcome_bind]. unfold schedule_loop. cbn [py_iter mbind outcome_bind].
  split.
  - intros Hne. destruct (map_to_list r) as [|[k v] kvs] eqn:Hl.
    + apply map_to_list_empty_iff in Hl. contradiction.
    + reflexivity.
  - intros ->. rewrite map_to_list_empty. reflexivity.
Qed.

(** X16. A record that lacks ["departuretime"], or that has a decodable
    ["departuretime"] and lacks ["arrivaltime"], at the head of the list
    makes [airline_flight_schedules] raise [KeyError]. *)
Theorem X16_schedules_missing_raw_field
    (start_date end_date origin destination airline flight_number how_many offset : value)
    (st : state world) (body : value) (w : world)
    (d : gmap string value) (rest : list value) :
  returns (to_unix_timestamp start_date) ->
  returns (to_unix_timestamp end_date) ->
  (forall rq, requests_post rq (net st) = (Ok (mkResponse (Ok body)), w)) ->
  _request_unwrap "AirlineFlightSchedules" body = Ok (VList (VDict d :: rest)) ->
  d !! "departuretime" = None \/
  (exists raw, d !! "departuretime" = Some raw /\ returns (from_unix_timestamp raw) /\
               d !! "arrivaltime" = None) ->
  (airline_flight_schedules start_date end_date origin destination airline flight_number
     how_many offset st).1 = Raise KeyError.
Proof.
  intros [s Hs] [e He] Hpost Hbody Hmissing.
  rewrite (airline_flight_schedules_run _ _ _ _ _ _ _ _ _ _ _ Hpost), Hs, He, Hbody.
  cbn [mbind outcome_bind]. unfold schedule_loop. cbn [py_iter mbind outcome_bind for_each].
  assert (Hitem : schedule_item (VDict d) = Raise KeyError).
  { unfold schedule_item. simpl.
    destruct Hmissing as [Hdep | (raw & Hdep & [t Ht] & Harr)]; rewrite Hdep; simpl.
    - reflexivity.
    - rewrite Ht. simpl. rewrite lookup_insert_ne by discriminate. rewrite Harr. reflexivity. }
  rewrite Hitem. reflexivity.
Qed.

(** X17. When the body unwraps to a list and [airline_flight_schedules]
    returns, it returns a list of as many records in the same order, and
    each record agrees with the one it comes from on every key other than
    ["departure_time"] and ["arrival_time"]. *)
Theorem X17_schedules_keep_records
    (start_date end_date origin destination airline flight_number how_many offset : value)
    (st : state world) (body : value) (w : world) (l : list value) (results : value) :
  (forall rq, requests_post rq (net st) = (Ok (mkResponse (Ok body)), w)) ->
  _request_unwrap "AirlineFlightSchedules" body = Ok (VList l) ->
  (airline_flight_schedules start_date end_date origin destination airline flight_number
     how_many offset st).1 = Ok results ->
  exists items,
    results = VList items /\
    Forall2 (fun item item' =>
               exists d d' : gmap string value,
                 item = VDict d /\ item' = VDict d' /\
                 forall k, k <> "departure_time" -> k <> "arrival_time" -> d' !! k = d !! k)
            l items.
Proof.
  intros Hpost Hbody.
  rewrite (airline_flight_schedules_run _ _ _ _ _ _ _ _ _ _ _ Hpost).
  destruct (to_unix_timestamp start_date); [|discriminate].
  destruct (to_unix_timestamp end_date); [|discriminate].
  rewrite Hbody. cbn [mbind outcome_bind]. unfold schedule_loop. cbn [py_iter mbind outcome_bind].
  destruct (for_each schedule_item l) as [items|] eqn:Hrun; [|discriminate].
  intros [= <-]. exists items. split; [reflexivity|].
  apply for_each_ok in Hrun.
  eapply Forall2_impl; [exact Hrun|].
  intros x y Hxy. exact (schedule_item_frame _ _ Hxy).
Qed.


(** X18. Every implemented operation other than
    [airline_flight_schedules] returns a decoded object that lacks the
    wrapping key of its method, such as the error object of the service, as
    it is. *)
Theorem X18_objects_without_wrapper_returned
    (c : implemented) (r : gmap string value) (st : state world) (w : world) :
  (forall a1 a2 a3 a4 a5 a6 a7 a8, c <> Airline_flight_schedules a1 a2 a3 a4 a5 a6 a7 a8) ->
  match c with
  | Get_flight_id _ departure_datetime => returns (to_unix_timestamp departure_datetime)
  | _ => True
  end ->
  (forall rq, requests_post rq (net st) = (Ok (mkResponse (Ok (VDict r))), w)) ->
  r !! (requested_method c ++ "Result")%string = None ->
  (call_implemented c st).1 = Ok (VDict r).
Proof.
  intros Hc Hdates Hpost Hr.
  destruct c; simpl in *;
    unfold aircraft_type, airline_flight_info, airline_info,
      airline_insight, airport_info, all_airlines, all_airports, block_indent_check,
      count_airport_operations, count_all_enroute_airline_operations, get_flight_id,
      metar, metar_ex, ntaf, taf, tail_owner, zipcode_info;
    try (rewrite (_request_decoded _ _ _ _ _ (Hpost _)); exact (_request_unwrap_raw _ _ Hr)).
  - exfalso. eapply Hc. reflexivity.
  - destruct Hdates as [s ->]. unfold mbind, M_bind, lift. simpl.
    rewrite (_request_decoded _ _ _ _ _ (Hpost _)). exact (_request_unwrap_raw _ _ Hr).
Qed.

End Binding.

(** ** The properties at concrete inputs *)

(** C1. [block_indent_check] against a service that answers
    [{"BlockIdentCheckResult": 1}], the shape of the answer of a method
    documented to return 1 or 0.  The body has the wrapping key and the
    wrapped value has no ["data"]; the call does not return the wrapped
    value, it raises [TypeError]. *)
Theorem C1_scalar_payload_raises :
  (block_indent_check unit (canned (VDict {[ "BlockIdentCheckResult" := VInt 1 ]}))
     (VStr "N12345") st0).1 = Raise TypeError.
Proof. vm_compute. reflexivity. Qed.

(** C2. In a process whose local zone is six hours behind UTC, converting
    2014-01-01 12:00:00 to epoch seconds and back gives 2014-01-01 06:00:00:
    [to_unix_timestamp] reads the datetime against the UTC epoch, and
    [from_unix_timestamp] decodes in the local zone. *)
Theorem C2_roundtrip_off_utc :
  (to_unix_timestamp (VDatetime (mkdatetime 2014 1 1 12 0 0 0 None))
     ≫= from_unix_timestamp zone_us_central no_float_timestamps)
  = Ok (mkdatetime 2014 1 1 6 0 0 0 None) /\
  (to_unix_timestamp (VDatetime (mkdatetime 2014 1 1 12 0 0 0 None))
     ≫= from_unix_timestamp zone_us_central no_float_timestamps)
  <> Ok (mkdatetime 2014 1 1 12 0 0 0 None).
Proof. split; [vm_compute; reflexivity | vm_compute; discriminate]. Qed.

(** The same datetime in a process on UTC comes back unchanged. *)
Lemma roundtrip_on_utc_example :
  (to_unix_timestamp (VDatetime (mkdatetime 2014 1 1 12 0 0 0 None))
     ≫= from_unix_timestamp zone_utc no_float_timestamps)
  = Ok (mkdatetime 2014 1 1 12 0 0 0 None).
Proof.
  apply (roundtrip_zero_offset zone_utc no_float_timestamps); try reflexivity.
  unfold fold_probes_in_calendar, in_calendar, zone_utc.
  change (seconds_since_epoch (mkdatetime 2014 1 1 12 0 0 0 None)) with 1388577600. lia.
Defined.

(** C3 at a service that answers one scheduled flight: the call returns
    the flight with its two derived fields. *)
Lemma C3_witness :
  exists items,
    (airline_flight_schedules zone_utc no_float_timestamps unit (canned sample_schedule_body)
       VNone VNone (VStr "BNA") (VStr "ATL") VNone VNone (VInt MAX_RECORD_LENGTH) (VInt 0)
       st0).1 = Ok (VList items) /\
    Forall2 (fun d item =>
               exists raw_dep raw_arr dep arr,
                 d !! "departuretime" = Some raw_dep /\ d !! "arrivaltime" = Some raw_arr /\
                 from_unix_timestamp zone_utc no_float_timestamps raw_dep = Ok dep /\
                 from_unix_timestamp zone_utc no_float_timestamps raw_arr = Ok arr /\
                 item = VDict (<["arrival_time" := VDatetime arr]>
                                 (<["departure_time" := VDatetime dep]> d)))
            [sample_flight] items.
Proof.
  apply (proj1 (C3_returned_records_have_derived_times zone_utc no_float_timestamps unit
                  (canned sample_schedule_body)
                  VNone VNone (VStr "BNA") (VStr "ATL") VNone VNone
                  (VInt MAX_RECORD_LENGTH) (VInt 0) st0)
           VNone VNone sample_schedule_body tt [sample_flight]).
  - reflexivity.
  - reflexivity.
  - intros rq. reflexivity.
  - vm_compute. reflexivity.
  - constructor; [|constructor].
    exists (VInt 1388577600), (VInt 1388584800).
    split; [vm_compute; reflexivity|]. split; [vm_compute; reflexivity|].
    split; eexists; vm_compute; reflexivity.
Defined.

(** C4, as the claim has it, fails: with [how_many = 16] the call is not
    rejected and the request asks for 16 records. *)
Lemma C4_counterexample :
  ~ rejected_or_truncated unit st0
      (airline_flight_schedules zone_utc no_float_timestamps unit (canned (VList []))
         VNone VNone VNone VNone VNone VNone (VInt 16) (VInt 0) st0).2.
Proof.
  intros [Hnone | Hall].
  - vm_compute in Hnone. discriminate.
  - apply Forall_inv in Hall. destruct Hall as (data & Hdata & Hmany).
    vm_compute in Hdata. injection Hdata as <-. vm_compute in Hmany. discriminate.
Qed.

(** C4 at [how_many = 16]. *)
Lemma C4_witness :
  exists data : gmap string value,
    issued unit st0
      (airline_flight_schedules zone_utc no_float_timestamps unit (canned (VList []))
         VNone VNone VNone VNone VNone VNone (VInt 16) (VInt 0) st0).2 =
      [request_of (self st0) "AirlineFlightSchedules" (VDict data)] /\
    data !! "howMany" = Some (VInt 16).
Proof.
  apply (C4_how_many_forwarded zone_utc no_float_timestamps unit (canned (VList []))
           VNone VNone VNone VNone VNone VNone (VInt 16) (VInt 0) st0 VNone VNone);
    reflexivity.
Defined.

(** [airport_info] at a service that answers an unknown airport code. *)
Lemma airport_info_returns_error_object_example :
  (airport_info unit (canned (VDict {[ "error" := VStr "unknown airport" ]}))
     (VStr "KasdfBNA") st0).1 = Ok (VDict {[ "error" := VStr "unknown airport" ]}).
Proof.
  apply (airport_info_returns_error_object unit
           (canned (VDict {[ "error" := VStr "unknown airport" ]}))
           (VStr "KasdfBNA") {[ "error" := VStr "unknown airport" ]} st0 tt).
  - reflexivity.
  - rewrite lookup_singleton_eq. eauto.
  - vm_compute. reflexivity.
Defined.

(** C7. Against a service that answers a search with the error object
    [{"error": "INVALID_ARGUMENT"}], [airport_info] returns the object for
    the caller to inspect, but [airline_flight_schedules] does not: its loop
    draws the key ["error"] and indexes it, and the call raises
    [TypeError]. *)
Theorem C7_schedules_raise_on_error_object :
  (airport_info unit (canned sample_error_body) (VStr "KasdfBNA") st0).1
    = Ok sample_error_body /\
  (airline_flight_schedules zone_utc no_float_timestamps unit (canned sample_error_body)
     (VDatetime sample_noon) (VDatetime (mkdatetime 2014 1 2 12 0 0 0 None))
     (VStr "BNA") (VStr "ATL") VNone VNone (VInt MAX_RECORD_LENGTH) (VInt 0) st0).1
    = Raise TypeError.
Proof. split; vm_compute; reflexivity. Qed.

(** C9, as the claim has it, fails on a datetime that carries a zone: the
    subtraction of the naive epoch raises. *)
Lemma C9_counterexample :
  ~ (exists n, to_unix_timestamp (VDatetime (mkdatetime 2014 1 1 12 0 0 0 (Some 0))) = Ok (VInt n)).
Proof. intros [n H]. vm_compute in H. discriminate. Qed.

(** On the last microsecond of [MAXYEAR] the binary64 quotient rounds up to
    the next whole second. *)
Example to_unix_timestamp_rounds_up :
  to_unix_timestamp (VDatetime (mkdatetime 9999 12 31 23 59 59 999999 None))
    = Ok (VInt 253402300800) /\
  seconds_since_epoch (mkdatetime 9999 12 31 23 59 59 999999 None) = 253402300799.
Proof. split; vm_compute; reflexivity. Qed.

(** C9 at one input of each kind. *)
Lemma C9_witness :
  to_unix_timestamp VNone = Ok VNone /\
  to_unix_timestamp (VStr "2014-01-01") = Raise ValueError /\
  to_unix_timestamp (VDatetime (mkdatetime 2014 1 1 12 0 0 0 (Some 0))) = Raise TypeError /\
  to_unix_timestamp (VDatetime (mkdatetime 2014 1 1 12 0 0 0 None)) = Ok (VInt 1388577600) /\
  to_unix_timestamp (VDatetime (mkdatetime 2014 1 1 12 0 0 500000 None)) = Ok (VInt 1388577600).
Proof.
  destruct C9_to_unix_timestamp_by_kind as (Hfalsy & Hother & Haware & Hnaive).
  split; [|split; [|split; [|split]]].
  - apply Hfalsy. reflexivity.
  - apply Hother; [reflexivity | discriminate].
  - apply (Haware _ 0). reflexivity.
  - destruct (Hnaive (mkdatetime 2014 1 1 12 0 0 0 None) eq_refl eq_refl) as (_ & Hexact & _).
    exact (Hexact eq_refl).
  - destruct (Hnaive (mkdatetime 2014 1 1 12 0 0 500000 None) eq_refl eq_refl) as (_ & _ & Hnear).
    apply Hnear. vm_compute. reflexivity.
Defined.

(** ** The extensions at concrete inputs *)

(** X1 at noon UTC of 2014-01-01 in a zone six hours behind. *)
Lemma X1_witness :
  valid_datetime (mkdatetime 2014 1 1 6 0 0 0 None) = true /\
  utcoffset (mkdatetime 2014 1 1 6 0 0 0 None) = None /\
  microsecond (mkdatetime 2014 1 1 6 0 0 0 None) = 0 /\
  seconds_since_epoch (mkdatetime 2014 1 1 6 0 0 0 None) =
    1388577600 + zone_us_central 1388577600.
Proof.
  apply (X1_from_unix_timestamp_decodes zone_us_central no_float_timestamps 1388577600).
  vm_compute. reflexivity.
Defined.

(** X2 at the first instant of year 1 on UTC. *)
Lemma X2_witness :
  returns (from_unix_timestamp zone_utc no_float_timestamps (VInt (-62135596800))) <->
  in_calendar (-62135596800 + zone_utc (-62135596800)) /\
  fold_probes_in_calendar zone_utc (-62135596800).
Proof.
  apply (X2_from_unix_timestamp_domain zone_utc no_float_timestamps (-62135596800)).
  unfold zone_utc. simpl. lia.
Defined.

(** X3 at noon UTC of 2014-01-01 in a zone six hours behind. *)
Lemma X3_witness :
  to_unix_timestamp (VDatetime (mkdatetime 2014 1 1 6 0 0 0 None)) =
  Ok (VInt (1388577600 + zone_us_central 1388577600)).
Proof.
  apply (X3_decode_then_encode zone_us_central no_float_timestamps 1388577600).
  vm_compute. reflexivity.
Defined.

(** X4 at noon of 2014-01-01 on UTC. *)
Lemma X4_witness :
  (to_unix_timestamp (VDatetime sample_noon)
     ≫= from_unix_timestamp zone_utc no_float_timestamps) = Ok sample_noon <->
  zone_utc (seconds_since_epoch sample_noon) = 0 /\
  fold_probes_in_calendar zone_utc (seconds_since_epoch sample_noon).
Proof.
  apply (X4_roundtrip_iff_zero_offset zone_utc no_float_timestamps sample_noon); reflexivity.
Defined.

(** X5 at noon of 2014-01-01. *)
Lemma X5_witness : sample_noon = mkdatetime 2014 1 1 12 0 0 0 None.
Proof.
  apply (X5_to_unix_timestamp_injective sample_noon (mkdatetime 2014 1 1 12 0 0 0 None));
    reflexivity.
Defined.

(** X6 at noon of 2014-01-01. *)
Lemma X6_witness :
  exists n, to_unix_timestamp (VDatetime sample_noon) = Ok (VInt n) /\
            -62135596800 <= n <= 253402300800.
Proof.
  apply (X6_to_unix_timestamp_range sample_noon); reflexivity.
Defined.

(** X7 at noon of 2014-01-01 and one second later. *)
Lemma X7_witness :
  exists n1 n2,
    to_unix_timestamp (VDatetime sample_noon) = Ok (VInt n1) /\
    to_unix_timestamp (VDatetime (mkdatetime 2014 1 1 12 0 1 0 None)) = Ok (VInt n2) /\
    n1 < n2.
Proof.
  apply (X7_to_unix_timestamp_monotone sample_noon (mkdatetime 2014 1 1 12 0 1 0 None));
    reflexivity.
Defined.

(** X8 at a wrapped airport record. *)
Lemma X8_witness :
  (_request unit
     (canned (VDict {[ "AirportInfoResult" := VDict {[ "name" := VStr "Nashville Intl" ]} ]}))
     "AirportInfo" VNone st0).1 = Ok (VDict {[ "name" := VStr "Nashville Intl" ]}).
Proof.
  exact (X8_request_unwraps_objects unit
           (canned (VDict {[ "AirportInfoResult" := VDict {[ "name" := VStr "Nashville Intl" ]} ]}))
           "AirportInfo" VNone
           {[ "AirportInfoResult" := VDict {[ "name" := VStr "Nashville Intl" ]} ]}
           st0 tt eq_refl).
Defined.

(** X9 at a wrapped weather report. *)
Lemma X9_witness :
  (_request unit (canned (VDict {[ "MetarResult" := VStr "KBNA 041453Z 18004KT" ]}))
     "Metar" VNone st0).1 = Ok (VStr "KBNA 041453Z 18004KT").
Proof.
  destruct (X9_request_wrapped_text_and_lists unit
              (canned (VDict {[ "MetarResult" := VStr "KBNA 041453Z 18004KT" ]}))
              "Metar" VNone {[ "MetarResult" := VStr "KBNA 041453Z 18004KT" ]} st0 tt eq_refl)
    as [Htext _].
  exact (Htext "KBNA 041453Z 18004KT" eq_refl).
Defined.

(** X10 at a body that is null. *)
Lemma X10_witness :
  (_request unit (canned VNone) "AllAirlines" VNone st0).1 = Raise TypeError.
Proof.
  apply (X10_request_scalars_raise unit (canned VNone) "AllAirlines" VNone VNone st0 tt).
  - reflexivity.
  - left. reflexivity.
Defined.

(** X11 at a service that cannot be reached. *)
Lemma X11_witness :
  (call_implemented zone_utc no_float_timestamps unit unreachable (Metar (VStr "BNA")) st0).1
    = Raise TransportError \/
  (issued unit st0
     (call_implemented zone_utc no_float_timestamps unit unreachable (Metar (VStr "BNA")) st0).2
     = [] /\
   exists e', (call_implemented zone_utc no_float_timestamps unit unreachable
                 (Metar (VStr "BNA")) st0).1 = Raise e').
Proof.
  apply (X11_faults_propagate zone_utc no_float_timestamps unit unreachable).
  intros rq. reflexivity.
Defined.

(** X12 at [metar] on the sample client. *)
Lemma X12_witness :
  Forall (fun rq =>
            req_url rq = (BASE_URL ++ vendor_method (Metar (VStr "BNA")))%string /\
            req_auth rq = mkHTTPBasicAuth "user" "key" /\
            req_headers rq = {[ "Content-Type" := "application/x-www-form-urlencoded" ]})
         (issued unit st0
            (call_implemented zone_utc no_float_timestamps unit (canned VNone)
               (Metar (VStr "BNA")) st0).2).
Proof.
  apply (X12_requests_of_constructed_client zone_utc no_float_timestamps unit (canned VNone)).
  - intros a. discriminate.
  - reflexivity.
Defined.

(** X13 at [airline_flight_schedules] with both dates left out. *)
Lemma X13_witness :
  length (issued unit st0
            (call_implemented zone_utc no_float_timestamps unit unreachable
               (Airline_flight_schedules VNone VNone VNone VNone VNone VNone
                  (VInt MAX_RECORD_LENGTH) (VInt 0)) st0).2) = 1%nat.
Proof.
  apply (X13_exactly_one_request zone_utc no_float_timestamps unit unreachable).
  split; exists VNone; reflexivity.
Defined.

(** X14 at a start date given as a string. *)
Lemma X14_witness :
  airline_flight_schedules zone_utc no_float_timestamps unit (canned sample_schedule_body)
    (VStr "2014-01-01") VNone VNone VNone VNone VNone (VInt MAX_RECORD_LENGTH) (VInt 0) st0
  = (Raise ValueError, st0).
Proof.
  destruct (X14_rejected_dates_send_nothing zone_utc no_float_timestamps unit
              (canned sample_schedule_body)
              (VStr "2014-01-01") VNone VNone VNone VNone VNone (VInt MAX_RECORD_LENGTH) (VInt 0)
              VNone VNone st0 ValueError) as (Hstart & _ & _).
  apply Hstart. reflexivity.
Defined.

(** X15 at the error object of the service. *)
Lemma X15_witness :
  (airline_flight_schedules zone_utc no_float_timestamps unit (canned sample_error_body)
     VNone VNone VNone VNone VNone VNone (VInt MAX_RECORD_LENGTH) (VInt 0) st0).1
  = Raise TypeError.
Proof.
  apply (X15_schedules_on_object_payload zone_utc no_float_timestamps unit
           (canned sample_error_body)
           VNone VNone VNone VNone VNone VNone (VInt MAX_RECORD_LENGTH) (VInt 0) st0
           sample_error_body tt {[ "error" := VStr "INVALID_ARGUMENT" ]}).
  - exists VNone. reflexivity.
  - exists VNone. reflexivity.
  - intros rq. reflexivity.
  - vm_compute. reflexivity.
  - intros Hempty. apply (f_equal (fun m : gmap string value => m !! "error")) in Hempty.
    vm_compute in Hempty. discriminate.
Defined.

(** X16 at a record without its departure time. *)
Lemma X16_witness :
  (airline_flight_schedules zone_utc no_float_timestamps unit
     (canned (VList [VDict {[ "ident" := VStr "DAL123" ]}]))
     VNone VNone VNone VNone VNone VNone (VInt MAX_RECORD_LENGTH) (VInt 0) st0).1
  = Raise KeyError.
Proof.
  apply (X16_schedules_missing_raw_field zone_utc no_float_timestamps unit
           (canned (VList [VDict {[ "ident" := VStr "DAL123" ]}]))
           VNone VNone VNone VNone VNone VNone (VInt MAX_RECORD_LENGTH) (VInt 0) st0
           (VList [VDict {[ "ident" := VStr "DAL123" ]}]) tt {[ "ident" := VStr "DAL123" ]} []).
  - exists VNone. reflexivity.
  - exists VNone. reflexivity.
  - intros rq. reflexivity.
  - vm_compute. reflexivity.
  - left. vm_compute. reflexivity.
Defined.

(** X17 at one scheduled flight. *)
Lemma X17_witness :
  exists items,
    VList [VDict (<[ "arrival_time" := VDatetime (mkdatetime 2014 1 1 14 0 0 0 None) ]> (
                  <[ "departure_time" := VDatetime (mkdatetime 2014 1 1 12 0 0 0 None) ]>
                    sample_flight))] = VList items /\
    Forall2 (fun item item' =>
               exists d d' : gmap string value,
                 item = VDict d /\ item' = VDict d' /\
                 forall k, k <> "departure_time" -> k <> "arrival_time" -> d' !! k = d !! k)
            [VDict sample_flight] items.
Proof.
  apply (X17_schedules_keep_records zone_utc no_float_timestamps unit
           (canned sample_schedule_body)
           VNone VNone VNone VNone VNone VNone (VInt MAX_RECORD_LENGTH) (VInt 0) st0
           sample_schedule_body tt).
  - intros rq. reflexivity.
  - vm_compute. reflexivity.
  - vm_compute. reflexivity.
Defined.

(** X18 at [metar] and the error object of the service. *)
Lemma X18_witness :
  (call_implemented zone_utc no_float_timestamps unit (canned sample_error_body)
     (Metar (VStr "KasdfBNA")) st0).1 = Ok sample_error_body.
Proof.
  apply (X18_objects_without_wrapper_returned zone_utc no_float_timestamps unit
           (canned sample_error_body) (Metar (VStr "KasdfBNA"))
           {[ "error" := VStr "INVALID_ARGUMENT" ]} st0 tt).
  - intros a1 a2 a3 a4 a5 a6 a7 a8. discriminate.
  - exact I.
  - intros rq. reflexivity.
  - vm_compute. reflexivity.
Defined.
